(** * Anubis request-gating engine: a shallow embedding of [lib/anubis.go]

    The development follows the Go code of [lib/anubis.go] (the policy
    evaluator [Server.check], the challenge derivation
    [Server.challengeFor], the pass endpoint [Server.PassChallenge], the
    gating handler [Server.MaybeReverseProxy] and [Server.RenderIndex]) and
    [lib/policy/checkresult.go].

    Go strings are byte sequences: they are modelled as [string] (a list
    of 8-bit [ascii]).  Go [int] is 64 bits wide: it is modelled as [Z],
    with the range written out where the code depends on it.  Maps
    ([http.Header], [url.Values], [jwt.MapClaims], the decaying cache) are
    [gmap]s.  A handler is a function from the server, the world it reads
    (clock, coin, denylist, origin), the shared state and the request to
    an outcome: what it wrote to the response and the new state, or a
    panic.

    Functions of the Go standard library that the handlers call are ported
    (SHA-256, [strconv.Atoi], [net.ParseIP], [time.Round] and the RFC 3339
    format); the cryptography of the session token, the page templates and
    a few functions on floating point and cookie syntax are fields of the
    class [Externals], over which the handlers are written. *)

From Stdlib Require Import ZArith Lia Ascii String List.
From stdpp Require Import base option gmap strings.
Import ListNotations.

Local Open Scope string_scope.
Local Open Scope Z_scope.

(** ** Bytes and strings *)

Module Str.

Definition byte_of (c : ascii) : Z := Z.of_N (N_of_ascii c).
Definition char_of (b : Z) : ascii := ascii_of_N (Z.to_N (b mod 256)).

Fixpoint bytes (s : string) : list Z :=
  match s with
  | EmptyString => []
  | String c s' => byte_of c :: bytes s'
  end.

(** [strings.Repeat(s, count)] for a non-negative count; the caller models
    the panic of a negative one. *)
Fixpoint repeat_nat (s : string) (n : nat) : string :=
  match n with
  | O => EmptyString
  | S n' => s ++ repeat_nat s n'
  end.

(** [strings.HasPrefix(s, prefix)] *)
Fixpoint HasPrefix (s prefix : string) : bool :=
  match prefix, s with
  | EmptyString, _ => true
  | String _ _, EmptyString => false
  | String p ps, String c cs => if Ascii.eqb c p then HasPrefix cs ps else false
  end.

(** [subtle.ConstantTimeCompare(x, y)]: 1 when the two slices have the
    same length and contents, 0 otherwise. *)
Definition ConstantTimeCompare (x y : string) : Z :=
  if String.eqb x y then 1 else 0.

Definition hex_digit (d : Z) : ascii :=
  if d <? 10 then char_of (48 + d) else char_of (87 + d).

(** two lower-case hex digits of a byte, as [%x] prints a byte slice *)
Definition hex_byte (b : Z) : string :=
  String (hex_digit (b / 16)) (String (hex_digit (b mod 16)) EmptyString).

Fixpoint hex (l : list Z) : string :=
  match l with
  | [] => EmptyString
  | b :: l' => hex_byte b ++ hex l'
  end.

(** Decimal digits of a non-negative number, most significant first;
    [fuel] bounds the number of digits. *)
Fixpoint digits_fuel (fuel : nat) (n : Z) (acc : string) : string :=
  match fuel with
  | O => acc
  | S f =>
      let acc' := String (char_of (48 + n mod 10)) acc in
      if n <? 10 then acc' else digits_fuel f (n / 10) acc'
  end.

Definition digits (n : Z) : string :=
  digits_fuel (S (Z.to_nat (Z.log2 n))) n EmptyString.

(** [%d] of [fmt.Sprintf] on an [int] *)
Definition itoa (n : Z) : string :=
  if n <? 0 then String "-"%char (digits (- n)) else digits n.

(** [appendInt(b, x, width)] of package [time]: decimal, zero-padded to
    [width] digits. *)
Definition pad (width : nat) (x : Z) : string :=
  let d := digits (Z.abs x) in
  let z := repeat_nat "0" (width - String.length d) in
  if x <? 0 then String "-"%char (z ++ d) else z ++ d.

End Str.

(** ** SHA-256 *)

(** [crypto/sha256]: the hash function of FIPS 180-4, on 32-bit words held
    in [Z]. *)
Module SHA256.

Definition w32 (x : Z) : Z := x mod 4294967296.
Definition add32 (x y : Z) : Z := w32 (x + y).
Definition rotr (n x : Z) : Z :=
  Z.lor (Z.shiftr x n) (w32 (Z.shiftl x (32 - n))).
Definition not32 (x : Z) : Z := Z.lxor x 4294967295.

Definition Ch (x y z : Z) : Z := Z.lxor (Z.land x y) (Z.land (not32 x) z).
Definition Maj (x y z : Z) : Z :=
  Z.lxor (Z.lxor (Z.land x y) (Z.land x z)) (Z.land y z).
Definition bsig0 (x : Z) : Z := Z.lxor (Z.lxor (rotr 2 x) (rotr 13 x)) (rotr 22 x).
Definition bsig1 (x : Z) : Z := Z.lxor (Z.lxor (rotr 6 x) (rotr 11 x)) (rotr 25 x).
Definition ssig0 (x : Z) : Z := Z.lxor (Z.lxor (rotr 7 x) (rotr 18 x)) (Z.shiftr x 3).
Definition ssig1 (x : Z) : Z := Z.lxor (Z.lxor (rotr 17 x) (rotr 19 x)) (Z.shiftr x 10).

(** The constants of FIPS 180-4 are the first 32 bits of the fractional
    parts of roots of the first primes: cube roots of the first 64 primes
    for the round constants, square roots of the first 8 for the initial
    hash value. *)
Definition is_prime (n : nat) : bool :=
  forallb (fun d => negb (Nat.eqb (Nat.modulo n d) 0)) (seq 2 (n - 2)).

Definition primes : list Z := map Z.of_nat (filter is_prime (seq 2 310)).

(** the cube root of [n], rounded down, found bit by bit *)
Fixpoint cbrt_bits (bits : nat) (n acc : Z) : Z :=
  match bits with
  | O => acc
  | S b =>
      let c := acc + 2 ^ Z.of_nat b in
      if c * c * c <=? n then cbrt_bits b n c else cbrt_bits b n acc
  end.

Definition frac_cbrt (p : Z) : Z := w32 (cbrt_bits 40 (p * 2 ^ 96) 0).
Definition frac_sqrt (p : Z) : Z := w32 (Z.sqrt (p * 2 ^ 64)).

Definition K : list Z := Eval vm_compute in map frac_cbrt primes.

Record regs := Regs { ra : Z; rb : Z; rc : Z; rd : Z; re : Z; rf : Z; rg : Z; rh : Z }.

Definition H0_words : list Z := Eval vm_compute in map frac_sqrt (firstn 8 primes).

Definition H0 : regs :=
  let h := H0_words in
  Regs (nth 0 h 0) (nth 1 h 0) (nth 2 h 0) (nth 3 h 0)
       (nth 4 h 0) (nth 5 h 0) (nth 6 h 0) (nth 7 h 0).

Definition round (s : regs) (k w : Z) : regs :=
  let t1 := w32 (rh s + bsig1 (re s) + Ch (re s) (rf s) (rg s) + k + w) in
  let t2 := w32 (bsig0 (ra s) + Maj (ra s) (rb s) (rc s)) in
  Regs (add32 t1 t2) (ra s) (rb s) (rc s) (add32 (rd s) t1) (re s) (rf s) (rg s).

(** The 64 rounds of one block; [win] holds the sixteen most recent words
    of the message schedule, the oldest first. *)
Fixpoint rounds (ks : list Z) (win : list Z) (s : regs) : regs :=
  match ks, win with
  | k :: ks', w0 :: rest =>
      let wnew :=
        w32 (ssig1 (nth 13 rest 0) + nth 8 rest 0 + ssig0 (nth 0 rest 0) + w0) in
      rounds ks' (rest ++ [wnew]) (round s k w0)
  | _, _ => s
  end.

Definition add_regs (s t : regs) : regs :=
  Regs (add32 (ra s) (ra t)) (add32 (rb s) (rb t)) (add32 (rc s) (rc t))
       (add32 (rd s) (rd t)) (add32 (re s) (re t)) (add32 (rf s) (rf t))
       (add32 (rg s) (rg t)) (add32 (rh s) (rh t)).

(** big-endian 32-bit words of a byte list *)
Fixpoint words (l : list Z) : list Z :=
  match l with
  | b0 :: b1 :: b2 :: b3 :: l' =>
      (b0 * 16777216 + b1 * 65536 + b2 * 256 + b3) :: words l'
  | _ => []
  end.

Definition block (s : regs) (ws : list Z) : regs :=
  add_regs s (rounds K ws s).

Fixpoint blocks (n : nat) (ws : list Z) (s : regs) : regs :=
  match n with
  | O => s
  | S n' => blocks n' (skipn 16 ws) (block s (firstn 16 ws))
  end.

Definition be_bytes (n : nat) (x : Z) : list Z :=
  map (fun i => (x / 256 ^ Z.of_nat i) mod 256) (rev (seq 0 n)).

Definition padding (msg : list Z) : list Z :=
  let l := Z.of_nat (length msg) in
  let zeros := Z.to_nat ((55 - l) mod 64) in
  msg ++ [128] ++ repeat 0 zeros ++ be_bytes 8 (8 * l).

Definition digest (msg : list Z) : list Z :=
  let p := padding msg in
  let s := blocks (length p / 64)%nat (words p) H0 in
  flat_map (be_bytes 4) [ra s; rb s; rc s; rd s; re s; rf s; rg s; rh s].

(** [sha256.Sum256] *)
Definition Sum256 (data : string) : list Z := digest (Str.bytes data).

End SHA256.

(** Modelled from the spec: [internal.SHA256sum] is not among the sources;
    the spec and the callers use it as the lower-case hex encoding of the
    SHA-256 digest of a string. *)
Definition SHA256sum (text : string) : string := Str.hex (SHA256.Sum256 text).

(** ** Package [time] *)

(** A [time.Time] is held as its number of nanoseconds since the Unix
    epoch, in UTC; a [time.Duration] is a number of nanoseconds. *)
Module Time.

Definition Second : Z := 1000000000.
Definition Minute : Z := 60 * Second.
Definition Hour : Z := 60 * Minute.

(** seconds from January 1, year 1 (the zero [Time]) to the Unix epoch *)
Definition unixToInternal : Z :=
  (1969 * 365 + 1969 / 4 - 1969 / 100 + 1969 / 400) * 86400.

Definition zero : Z := - (unixToInternal * Second).

Definition Add (t d : Z) : Z := t + d.
Definition Unix (t : Z) : Z := t / Second.
Definition After (t u : Z) : bool := u <? t.
Definition IsZero (t : Z) : bool := t =? zero.

(** [t.Round(d)]: the nearest multiple of [d] since the zero time,
    halfway values rounding up; [t] itself when [d <= 0]. *)
Definition Round (t d : Z) : Z :=
  if d <=? 0 then t
  else
    let r := (t + unixToInternal * Second) mod d in
    if r + r <? d then t - r else t + (d - r).

(** [t.Truncate(d)], for comparison: the multiple of [d] at or below [t]. *)
Definition Truncate (t d : Z) : Z :=
  if d <=? 0 then t else t - (t + unixToInternal * Second) mod d.

(** Year, month and day of a day number counted from 1970-01-01, in the
    proleptic Gregorian calendar, by eras of 400 years that start on
    March 1: [doe] is the day of the era, [yoe] the year of the era, [doy]
    the day of the year counted from March 1 and [mp] the month counted
    from March. *)
Definition yoe_of (doe : Z) : Z :=
  (doe - doe / 1460 + doe / 36524 - doe / 146096) / 365.

Definition doy_of (doe : Z) : Z :=
  doe - (365 * yoe_of doe + yoe_of doe / 4 - yoe_of doe / 100).

Definition mp_of (doy : Z) : Z := (5 * doy + 2) / 153.

Definition month_of (mp : Z) : Z := if mp <? 10 then mp + 3 else mp - 9.

Definition civil (days : Z) : Z * Z * Z :=
  let z := days + 719468 in
  let era := z / 146097 in
  let doe := z - era * 146097 in
  let doy := doy_of doe in
  let mp := mp_of doy in
  let d := doy - (153 * mp + 2) / 5 + 1 in
  let m := month_of mp in
  let y := yoe_of doe + era * 400 + (if m <=? 2 then 1 else 0) in
  (y, m, d).

(** the seven days of [24*7*time.Hour] *)
Definition Week : Z := 24 * 7 * Hour.

(** the number of the week of [t]: weeks are counted from the zero time and
    run from Thursday 12:00 UTC to the next *)
Definition week_of (t : Z) : Z :=
  (t + unixToInternal * Second + Week / 2) / Week.

(** the year of [t] is written with four digits *)
Definition four_digit_year (t : Z) : bool :=
  let '(y, _, _) := civil (Unix t / 86400) in (0 <=? y) && (y <=? 9999).

(** [t.Format(time.RFC3339)] of a UTC time: [2006-01-02T15:04:05Z]. *)
Definition FormatRFC3339 (t : Z) : string :=
  let sec := Unix t in
  let '(y, m, d) := civil (sec / 86400) in
  let sod := sec mod 86400 in
  Str.pad 4 y ++ "-" ++ Str.pad 2 m ++ "-" ++ Str.pad 2 d ++ "T"
  ++ Str.pad 2 (sod / 3600) ++ ":" ++ Str.pad 2 (sod mod 3600 / 60) ++ ":"
  ++ Str.pad 2 (sod mod 60) ++ "Z".

End Time.

(** ** Package [strconv] *)

Module Strconv.

Definition is_digit (c : ascii) : bool :=
  let b := Str.byte_of c in (48 <=? b) && (b <=? 57).

(** value of a string of decimal digits; [None] on any other byte *)
Fixpoint dec (s : string) (acc : Z) : option Z :=
  match s with
  | EmptyString => Some acc
  | String c s' =>
      if is_digit c then dec s' (acc * 10 + (Str.byte_of c - 48)) else None
  end.

Definition unsigned (s : string) : option Z :=
  match s with
  | EmptyString => None
  | _ => dec s 0
  end.

(** [strconv.Atoi]: an optional sign, then one or more decimal digits;
    a syntax error otherwise, a range error outside the 64-bit [int]. *)
Definition Atoi (s : string) : option Z :=
  let signed :=
    match s with
    | String "-"%char s' => option_map Z.opp (unsigned s')
    | String "+"%char s' => unsigned s'
    | _ => unsigned s
    end in
  match signed with
  | Some n =>
      if (- 9223372036854775808 <=? n) && (n <=? 9223372036854775807)
      then Some n else None
  | None => None
  end.

End Strconv.

(** ** Package [net]: [net.ParseIP] *)

(** [net.ParseIP(s)] is [netip.ParseAddr(s)] with addresses that carry a
    zone refused; the result is the 16-byte form of the address, [None]
    standing for the nil [IP].  The parser is a port of the one of package
    [netip]: the first of the bytes [.], [:] and [%] decides between the
    dotted IPv4 form and the IPv6 form. *)
Module Net.

Definition is_empty (s : string) : bool :=
  match s with EmptyString => true | _ => false end.

Definition hexval (c : ascii) : option Z :=
  let b := Str.byte_of c in
  if (48 <=? b) && (b <=? 57) then Some (b - 48)
  else if (97 <=? b) && (b <=? 102) then Some (b - 97 + 10)
  else if (65 <=? b) && (b <=? 70) then Some (b - 65 + 10)
  else None.

(** [parseIPv4Fields]: four decimal octets separated by dots, no octet
    empty, above 255 or written with a leading zero.  [i] is the index of
    the current byte, [prev_dot] tells whether the previous byte was a dot. *)
Fixpoint parseIPv4Fields (s : string) (i : Z) (prev_dot : bool)
    (val pos digLen : Z) (fields : list Z) : option (list Z) :=
  match s with
  | EmptyString => if pos <? 3 then None else Some (fields ++ [val])%list
  | String c rest =>
      if Strconv.is_digit c then
        if (digLen =? 1) && (val =? 0) then None
        else
          let val' := val * 10 + (Str.byte_of c - 48) in
          if 255 <? val' then None
          else parseIPv4Fields rest (i + 1) false val' pos (digLen + 1) fields
      else if Ascii.eqb c "."%char then
        if (i =? 0) || is_empty rest || prev_dot then None
        else if pos =? 3 then None
        else parseIPv4Fields rest (i + 1) true 0 (pos + 1) 0 (fields ++ [val])%list
      else None
  end.

Definition parseIPv4 (s : string) : option (list Z) :=
  option_map (fun v4 => ([0; 0; 0; 0; 0; 0; 0; 0; 0; 0; 255; 255] ++ v4)%list)
             (parseIPv4Fields s 0 false 0 0 0 []).

(** One group of hex digits: the number of digits read, their value and
    the rest of the string; [None] on a fifth digit. *)
Fixpoint hexnum (s : string) (off acc : Z) : option (Z * Z * string) :=
  match s with
  | EmptyString => Some (off, acc, s)
  | String c rest =>
      match hexval c with
      | Some d =>
          let acc' := acc * 16 + d in
          if 3 <? off then None
          else if 65535 <? acc' then None
          else hexnum rest (off + 1) acc'
      | None => Some (off, acc, s)
      end
  end.

(** The loop [for i < 16] of [parseIPv6]: [ip] holds the [i] bytes written
    so far, [ellipsis] the position of [::] or -1.  Each turn adds two
    bytes or leaves the loop, so nine turns of fuel are never used up. *)
Fixpoint parseIPv6_loop (fuel : nat) (s : string) (i ellipsis : Z)
    (ip : list Z) : option (string * Z * Z * list Z) :=
  match fuel with
  | O => Some (s, i, ellipsis, ip)
  | S fuel' =>
      if 16 <=? i then Some (s, i, ellipsis, ip)
      else
        match hexnum s 0 0 with
        | None => None
        | Some (off, acc, rest) =>
            if off =? 0 then None
            else
              match rest with
              | String "."%char _ =>
                  if (ellipsis <? 0) && negb (i =? 12) then None
                  else if 16 <? i + 4 then None
                  else
                    match parseIPv4Fields s 0 false 0 0 0 [] with
                    | None => None
                    | Some v4 => Some (EmptyString, i + 4, ellipsis, (ip ++ v4)%list)
                    end
              | EmptyString =>
                  Some (EmptyString, i + 2, ellipsis, (ip ++ [acc / 256; acc mod 256])%list)
              | String c s1 =>
                  let ip' := (ip ++ [acc / 256; acc mod 256])%list in
                  let i' := i + 2 in
                  if negb (Ascii.eqb c ":"%char) then None
                  else
                    match s1 with
                    | EmptyString => None
                    | String ":"%char s2 =>
                        if 0 <=? ellipsis then None
                        else if is_empty s2 then Some (EmptyString, i', i', ip')
                        else parseIPv6_loop fuel' s2 i' i' ip'
                    | _ => parseIPv6_loop fuel' s1 i' ellipsis ip'
                    end
              end
        end
  end.

Definition parseIPv6 (s : string) : option (list Z) :=
  let '(s0, ellipsis0) :=
    match s with
    | String ":"%char (String ":"%char s') => (s', 0)
    | _ => (s, -1)
    end in
  if (0 <=? ellipsis0) && is_empty s0 then Some (repeat 0 16)
  else
    match parseIPv6_loop 9 s0 0 ellipsis0 [] with
    | None => None
    | Some (rest, i, ellipsis, ip) =>
        if negb (is_empty rest) then None
        else if i <? 16 then
          if ellipsis <? 0 then None
          else
            let e := Z.to_nat ellipsis in
            Some (firstn e ip ++ repeat 0 (Z.to_nat (16 - i)) ++ skipn e ip)%list
        else if 0 <=? ellipsis then None
        else Some ip
    end.

Fixpoint contains (c : ascii) (s : string) : bool :=
  match s with
  | EmptyString => false
  | String c' s' => Ascii.eqb c c' || contains c s'
  end.

(** the first of [.], [:] and [%] in the string *)
Fixpoint first_sep (s : string) : option ascii :=
  match s with
  | EmptyString => None
  | String c s' =>
      if Ascii.eqb c "."%char || Ascii.eqb c ":"%char || Ascii.eqb c "%"%char
      then Some c else first_sep s'
  end.

Definition ParseIP (s : string) : option (list Z) :=
  match first_sep s with
  | Some "."%char => parseIPv4 s
  | Some ":"%char => if contains "%"%char s then None else parseIPv6 s
  | _ => None
  end.

End Net.

(** ** Packages [config] and [policy]: rules and check results *)

(** Modelled from the spec: package [config] is not among the sources.  An
    action is one of the tags allow, deny, challenge and benchmark of the
    spec's data model; [RuleUnknown] stands for every other value of the
    Go string type, the zero value included. *)
Inductive Rule := RuleUnknown | RuleAllow | RuleDeny | RuleChallenge | RuleBenchmark.

Inductive Algorithm := AlgorithmUnknown | AlgorithmFast | AlgorithmSlow.

#[global] Instance Rule_eq_dec : EqDecision Rule.
Proof. solve_decision. Defined.

#[global] Instance Algorithm_eq_dec : EqDecision Algorithm.
Proof. solve_decision. Defined.

(** [string(cr.Rule)] *)
Definition Rule_tag (a : Rule) : string :=
  match a with
  | RuleUnknown => ""
  | RuleAllow => "ALLOW"
  | RuleDeny => "DENY"
  | RuleChallenge => "CHALLENGE"
  | RuleBenchmark => "DEBUG_BENCHMARK"
  end.

(** [config.ChallengeRules] *)
Record ChallengeRules := {
  Difficulty : Z;
  ReportAs : Z;
  Algo : Algorithm;
}.

(** *** HTTP requests *)

Inductive SameSite := SameSiteDefaultMode | SameSiteLaxMode | SameSiteStrictMode | SameSiteNoneMode.

(** [http.Cookie], with the fields the handlers set or read. *)
Record Cookie := {
  Name : string;
  Value : string;
  Expires : Z;
  CSameSite : SameSite;
  Domain : string;
  Partitioned : bool;
  Path : string;
}.

(** [http.Request]: the header and the form values map a key to its list
    of values; the keys of [Header] are in canonical form. *)
Record Request := {
  Header : gmap string (list string);
  Form : gmap string (list string);
  URL : string;
  Cookies : list Cookie;
}.

Definition values_Get (m : gmap string (list string)) (key : string) : string :=
  match m !! key with
  | Some (v :: _) => v
  | _ => ""
  end.

(** [r.Header.Get(key)] *)
Definition Header_Get (r : Request) (key : string) : string := values_Get (Header r) key.

(** [r.FormValue(key)] *)
Definition FormValue (r : Request) (key : string) : string := values_Get (Form r) key.

(** [r.UserAgent()] *)
Definition UserAgent (r : Request) : string := Header_Get r "User-Agent".

(** [r.Header.Add(key, value)]; the header map is shared with the request
    that is forwarded, so the updated request is returned. *)
Definition Header_Add (r : Request) (key value : string) : Request :=
  {| Header := <[key := (default [] (Header r !! key) ++ [value])%list]> (Header r);
     Form := Form r; URL := URL r; Cookies := Cookies r |}.

(** [r.Cookie(name)]: the first cookie of that name, an error when there
    is none. *)
Definition Request_Cookie (r : Request) (name : string) : option Cookie :=
  List.find (fun c => String.eqb (Name c) name) (Cookies r).

(** *** Rules *)

(** [policy.Checker]: the predicate of a rule, with its stable hash.  [Check]
    returns the match flag and the error, as the Go method does. *)
Record Checker := {
  Check : Request -> bool * option string;
  Hash : string;
}.

(** [policy.Bot].  [Challenge] is a pointer and [Rules] an interface value:
    both can be nil, which [None] stands for. *)
Record Bot := {
  BName : string;
  Action : Rule;
  Challenge : option ChallengeRules;
  Rules : option Checker;
}.

(** [policy.CheckResult] *)
Record CheckResult := {
  CRName : string;
  CRRule : Rule;
}.

(** Modelled from the spec: [policy.ParsedConfig] is not among the sources;
    these are the three fields the handlers read, the ones of the spec's
    Parsed Policy. *)
Record ParsedConfig := {
  Bots : list Bot;
  DNSBL : bool;
  DefaultDifficulty : Z;
}.

(** A Go call either returns or panics. *)
Inductive Outcome (A : Type) :=
  | Returned (a : A)
  | Panicked.
Arguments Returned {A} a.
Arguments Panicked {A}.

(** [Bot.Hash] *)
Definition Bot_Hash (b : Bot) : Outcome string :=
  match Rules b with
  | Some c => Returned (SHA256sum (BName b ++ "::" ++ Hash c))
  | None => Panicked
  end.

(** The errors of [Server.check]. *)
Inductive error :=
  | ErrHeaderNotSet
      (* "[misconfiguration] X-Real-Ip header is not set" *)
  | ErrNotAnIP (host : string)
      (* "[misconfiguration] %q is not an IP address" *)
  | ErrCantRunCheck (name : string) (err : string).
      (* "can't run check %s: %w" *)

Definition misconfiguration (e : error) : bool :=
  match e with
  | ErrHeaderNotSet | ErrNotAnIP _ => true
  | ErrCantRunCheck _ _ => false
  end.

(** [cr(name, rule)] *)
Definition cr (name : string) (rule : Rule) : CheckResult :=
  {| CRName := name; CRRule := rule |}.

(** [decaymap.Zilch[policy.CheckResult]()] *)
Definition Zilch_CheckResult : CheckResult := {| CRName := ""; CRRule := RuleUnknown |}.

(** What [Server.check] returns: the three results of the Go function,
    and the names of the rules whose predicate was evaluated, in order. *)
Record Checked := {
  result : CheckResult;
  rule : option Bot;
  err : option error;
  evaluated : list string;
}.

(** the synthetic rule of the default path *)
Definition default_bot (p : ParsedConfig) : Bot :=
  {| BName := ""; Action := RuleUnknown;
     Challenge := Some {| Difficulty := DefaultDifficulty p;
                          ReportAs := DefaultDifficulty p;
                          Algo := AlgorithmFast |};
     Rules := None |}.

(** The loop [for _, b := range s.policy.Bots] of [Server.check] and the
    return that follows it. *)
Fixpoint check_bots (p : ParsedConfig) (bots : list Bot) (r : Request)
    (seen : list string) : Outcome Checked :=
  match bots with
  | [] =>
      Returned {| result := cr "default/allow" RuleAllow;
                  rule := Some (default_bot p); err := None; evaluated := seen |}
  | b :: rest =>
      match Rules b with
      | None => Panicked
      | Some c =>
          let seen' := (seen ++ [BName b])%list in
          match Check c r with
          | (_, Some e) =>
              Returned {| result := Zilch_CheckResult; rule := None;
                          err := Some (ErrCantRunCheck (BName b) e);
                          evaluated := seen' |}
          | (true, None) =>
              Returned {| result := cr ("bot/" ++ BName b) (Action b);
                          rule := Some b; err := None; evaluated := seen' |}
          | (false, None) => check_bots p rest r seen'
          end
      end
  end.

(** [Server.check] *)
Definition check (p : ParsedConfig) (r : Request) : Outcome Checked :=
  let host := Header_Get r "X-Real-Ip" in
  if String.eqb host "" then
    Returned {| result := Zilch_CheckResult; rule := None;
                err := Some ErrHeaderNotSet; evaluated := [] |}
  else
    match Net.ParseIP host with
    | None =>
        Returned {| result := Zilch_CheckResult; rule := None;
                    err := Some (ErrNotAnIP host); evaluated := [] |}
    | Some _ => check_bots p (Bots p) r []
    end.

(** ** What the handlers take from outside *)

(** [interface{}] values held by a [jwt.MapClaims].  A [float64] is held as
    its 64-bit pattern; JSON numbers decode to [float64], the claims that
    [PassChallenge] mints are [int], [int64] and [string]. *)
Inductive any :=
  | ANil
  | AString (s : string)
  | AInt (n : Z)
  | AInt64 (n : Z)
  | AFloat64 (bits : Z)
  | ABool (b : bool)
  | AOther (json : string).

#[global] Instance any_eq_dec : EqDecision any.
Proof. solve_decision. Defined.

(** [claims[key]]: the nil interface when the key is absent *)
Definition claim (claims : gmap string any) (key : string) : any :=
  default ANil (claims !! key).

(** Libraries and packages that the handlers call and that are not among
    the sources: Ed25519 keys, the JWT library, the page templates of
    package [web], and pieces of [strconv] and [net/http] on floating
    point and cookie syntax.  The handlers are written once, over any
    implementation of them. *)
Class Externals := {
  PrivateKey : Type;
  PublicKey : Type;
  (** [priv.Seed()] and [priv.Public()] *)
  Seed : PrivateKey -> string;
  Public : PrivateKey -> PublicKey;
  (** [jwt.NewWithClaims(jwt.SigningMethodEdDSA, claims).SignedString(priv)] *)
  SignedString : PrivateKey -> gmap string any -> option string;
  (** [jwt.ParseWithClaims(value, jwt.MapClaims{}, keyfunc,
      jwt.WithExpirationRequired(), jwt.WithStrictDecoding())] with a key
      function that returns the public key, at the given clock reading:
      the claims when there is no error and the token is valid. *)
  ParseWithClaims : PublicKey -> Z -> string -> option (gmap string any);
  (** [strconv.ParseFloat(s, 64)] *)
  ParseFloat : string -> option Z;
  (** the conversion [int(v)] of a [float64] *)
  int_of_float64 : Z -> Z;
  (** [ckie.Valid() == nil] *)
  Cookie_Valid : Cookie -> bool;
  (** [anubis.CookieName] *)
  CookieName : string;
  (** [resp.String()] of a [dnsbl.DroneBLResponse] *)
  DroneBLResponse_String : Z -> string;
  (** whether [web.BaseWithChallengeAndOGTags] returns a component for
      this challenge, these rules and these tags, and no error *)
  BaseWithChallengeAndOGTags :
    string -> option ChallengeRules -> option (gmap string string) -> bool;
}.

(** What one request reads from the world: the successive readings of the
    clock by [time.Now()], the coin of [randomJitter()], the answer of the
    denylist to [dnsbl.Lookup] and of the origin to [OGTags.GetOGTags]. *)
Record World := {
  clock : nat -> Z;
  randomJitter : bool;
  dnsbl_Lookup : string -> Z * option string;
  GetOGTags : string -> gmap string string * option string;
}.

(** ** The decaying map *)

(** Package [decaymap] is not among the sources: the map is an entry per
    key, holding a value and its expiry, as in the spec (4.1). *)
Module Decaymap.

(** Modelled from the spec: [Impl.Get] of package [decaymap], at the clock
    reading [now]: absent when there is no entry or its expiry is at or
    before [now], in which case the entry is removed. *)
Definition Get {V} (m : gmap string (V * Z)) (key : string) (now : Z)
    : option V * gmap string (V * Z) :=
  match m !! key with
  | None => (None, m)
  | Some (v, expiry) =>
      if expiry <=? now then (None, delete key m) else (Some v, m)
  end.

(** Modelled from the spec: [Impl.Set] of package [decaymap], at the clock
    reading [now]: the entry expires at [now + ttl]. *)
Definition Set_ {V} (m : gmap string (V * Z)) (key : string) (v : V) (ttl now : Z)
    : gmap string (V * Z) :=
  <[key := (v, now + ttl)]> m.

End Decaymap.

(** Modelled from the spec: package [dnsbl] is not among the sources.  A
    [DroneBLResponse] is the last octet of the answer of the zone; the
    classification [all_good] is the zero value of the type. *)
Definition AllGood : Z := 0.

(** ** Server state and responses *)

Record Options := {
  CookieDomain : string;
  CookiePartitioned : bool;
  OGPassthrough : bool;
  WebmasterEmail : string;
}.

(** The shared state that the handlers read and update: the clock
    readings used so far, the denylist cache and the metrics. *)
Record State := {
  tick : nat;
  DNSBLCache : gmap string (Z * Z);
  failedValidations : Z;
  challengesValidated : Z;
  timeTaken : list Z;
  droneBLHits : list Z;
  Applications : list (string * string);
}.

Definition set_tick (st : State) (n : nat) : State :=
  {| tick := n; DNSBLCache := DNSBLCache st;
     failedValidations := failedValidations st;
     challengesValidated := challengesValidated st; timeTaken := timeTaken st;
     droneBLHits := droneBLHits st; Applications := Applications st |}.

Definition set_DNSBLCache (st : State) (m : gmap string (Z * Z)) : State :=
  {| tick := tick st; DNSBLCache := m;
     failedValidations := failedValidations st;
     challengesValidated := challengesValidated st; timeTaken := timeTaken st;
     droneBLHits := droneBLHits st; Applications := Applications st |}.

(** [failedValidations.Inc()] *)
Definition failedValidations_Inc (st : State) : State :=
  {| tick := tick st; DNSBLCache := DNSBLCache st;
     failedValidations := failedValidations st + 1;
     challengesValidated := challengesValidated st; timeTaken := timeTaken st;
     droneBLHits := droneBLHits st; Applications := Applications st |}.

(** [challengesValidated.Inc()] *)
Definition challengesValidated_Inc (st : State) : State :=
  {| tick := tick st; DNSBLCache := DNSBLCache st;
     failedValidations := failedValidations st;
     challengesValidated := challengesValidated st + 1; timeTaken := timeTaken st;
     droneBLHits := droneBLHits st; Applications := Applications st |}.

(** [timeTaken.Observe(v)] *)
Definition timeTaken_Observe (st : State) (v : Z) : State :=
  {| tick := tick st; DNSBLCache := DNSBLCache st;
     failedValidations := failedValidations st;
     challengesValidated := challengesValidated st;
     timeTaken := (timeTaken st ++ [v])%list;
     droneBLHits := droneBLHits st; Applications := Applications st |}.

(** [droneBLHits.WithLabelValues(resp.String()).Inc()] *)
Definition droneBLHits_Inc (st : State) (resp : Z) : State :=
  {| tick := tick st; DNSBLCache := DNSBLCache st;
     failedValidations := failedValidations st;
     challengesValidated := challengesValidated st; timeTaken := timeTaken st;
     droneBLHits := (droneBLHits st ++ [resp])%list;
     Applications := Applications st |}.

(** [policy.Applications.WithLabelValues(name, action).Add(1)] *)
Definition Applications_Add (st : State) (name action : string) : State :=
  {| tick := tick st; DNSBLCache := DNSBLCache st;
     failedValidations := failedValidations st;
     challengesValidated := challengesValidated st; timeTaken := timeTaken st;
     droneBLHits := droneBLHits st;
     Applications := (Applications st ++ [(name, action)])%list |}.

(** [time.Now()]: the next reading of the clock. *)
Definition Now (w : World) (st : State) : Z * State :=
  (clock w (tick st), set_tick st (S (tick st))).

(** What a handler writes to the [http.ResponseWriter]. *)
Inductive CookieWrite :=
  | Cleared                 (* [s.ClearCookie(w)] *)
  | SetCookie (c : Cookie). (* [http.SetCookie(w, &c)] *)

(** The pages of package [web], by what the handler passes to the template. *)
Inductive Page :=
  | ErrorPage (message mail : string)
      (* [web.Base("Oh noes!", web.ErrorPage(message, mail))] *)
  | IndexPage (challenge : string) (rules : option ChallengeRules)
              (ogTags : option (gmap string string))
      (* the challenge page of [web.BaseWithChallengeAndOGTags] *)
  | BenchPage.
      (* [web.Base("Benchmarking Anubis!", web.Bench())] *)

Inductive Reply :=
  | Render (status : Z) (page : Page)      (* a page served with a status *)
  | Forward (r : Request)                  (* [s.next.ServeHTTP(w, r)] *)
  | Redirect (status : Z) (url : string).  (* [http.Redirect(w, r, url, status)] *)

Record Response := {
  cookies : list CookieWrite;
  reply : Reply;
}.

(** the status code of a reply written by the handler itself *)
Definition status_of (rep : Reply) : option Z :=
  match rep with
  | Render status _ | Redirect status _ => Some status
  | Forward _ => None
  end.

Section Handlers.

Context `{Ext : Externals}.

Record Server := {
  priv : PrivateKey;
  pub : PublicKey;
  policy : ParsedConfig;
  opts : Options;
}.

Definition StatusOK : Z := 200.
Definition StatusFound : Z := 302.
Definition StatusForbidden : Z := 403.
Definition StatusInternalServerError : Z := 500.

(** The string that [Server.challengeFor] hashes, at the clock reading [now]. *)
Definition challengeData (s : Server) (r : Request) (difficulty : Z) (now : Z) : string :=
  "Accept-Language=" ++ Header_Get r "Accept-Language"
  ++ ",X-Real-IP=" ++ Header_Get r "X-Real-Ip"
  ++ ",User-Agent=" ++ UserAgent r
  ++ ",WeekTime=" ++ Time.FormatRFC3339 (Time.Round now (24 * 7 * Time.Hour))
  ++ ",Fingerprint=" ++ Str.hex (SHA256.Sum256 (Seed (priv s)))
  ++ ",Difficulty=" ++ Str.itoa difficulty.

(** [Server.challengeFor], at the clock reading [now]. *)
Definition challengeFor (s : Server) (r : Request) (difficulty : Z) (now : Z) : string :=
  SHA256sum (challengeData s r difficulty now).

(** [rule.Challenge.Difficulty]: a nil [rule] or a nil [Challenge] panics. *)
Definition rule_Difficulty (rule : option Bot) : Outcome Z :=
  match rule with
  | Some b =>
      match Challenge b with
      | Some c => Returned (Difficulty c)
      | None => Panicked
      end
  | None => Panicked
  end.

Definition serve (st : State) (w : list CookieWrite) (rep : Reply)
    : Outcome (Response * State) :=
  Returned ({| cookies := w; reply := rep |}, st).

Definition serveError (s : Server) (st : State) (w : list CookieWrite)
    (status : Z) (message : string) : Outcome (Response * State) :=
  serve st w (Render status (ErrorPage message (WebmasterEmail (opts s)))).

(** [s.ClearCookie(w)] *)
Definition ClearCookie (w : list CookieWrite) : list CookieWrite := (w ++ [Cleared])%list.

(** [Server.RenderIndex] *)
Definition RenderIndex (s : Server) (wd : World) (st : State)
    (w : list CookieWrite) (r : Request) (rule : option Bot)
    : Outcome (Response * State) :=
  match rule_Difficulty rule with
  | Panicked => Panicked
  | Returned difficulty =>
      let '(now, st) := Now wd st in
      let challenge := challengeFor s r difficulty now in
      let ogTags :=
        if OGPassthrough (opts s) then
          match GetOGTags wd (URL r) with
          | (tags, None) => Some tags
          | (_, Some _) => None
          end
        else None in
      let rules := match rule with Some b => Challenge b | None => None end in
      if BaseWithChallengeAndOGTags challenge rules ogTags then
        serve st w (Render StatusOK (IndexPage challenge rules ogTags))
      else
        serveError s st w StatusInternalServerError
          "Other internal server error (contact the admin)"
  end.

(** [Server.RenderBench] *)
Definition RenderBench (st : State) (w : list CookieWrite) : Outcome (Response * State) :=
  serve st w (Render StatusOK BenchPage).

(** the double quote, for the messages that quote a handler's name *)
Definition dquote : string := String (ascii_of_nat 34) EmptyString.

Definition misconfigured (handler : string) : string :=
  "Internal Server Error: administrator has misconfigured Anubis. Please contact the administrator and ask them to look for the logs around "
  ++ dquote ++ handler ++ dquote.

(** The claims of the token that [PassChallenge] mints, from the three
    clock readings of the map literal, in the order of the source. *)
Definition mintClaims (challenge : string) (nonce : Z) (response : string)
    (t_iat t_nbf t_exp : Z) : gmap string any :=
  <["challenge" := AString challenge]>
  (<["nonce" := AInt nonce]>
  (<["response" := AString response]>
  (<["iat" := AInt64 (Time.Unix t_iat)]>
  (<["nbf" := AInt64 (Time.Unix (Time.Add t_nbf (-1 * Time.Minute)))]>
  (<["exp" := AInt64 (Time.Unix (Time.Add t_exp (24 * 7 * Time.Hour)))]> ∅))))).

(** [Server.PassChallenge] *)
Definition PassChallenge (s : Server) (wd : World) (st : State) (r : Request)
    : Outcome (Response * State) :=
  match check (policy s) r with
  | Panicked => Panicked
  | Returned c =>
  match err c with
  | Some _ =>
      serveError s st [] StatusInternalServerError (misconfigured "passChallenge" ++ ".")
  | None =>
  let nonceStr := FormValue r "nonce" in
  if String.eqb nonceStr "" then
    serveError s st (ClearCookie []) StatusInternalServerError "missing nonce"
  else
  let elapsedTimeStr := FormValue r "elapsedTime" in
  if String.eqb elapsedTimeStr "" then
    serveError s st (ClearCookie []) StatusInternalServerError "missing elapsedTime"
  else
  match ParseFloat elapsedTimeStr with
  | None =>
      serveError s st (ClearCookie []) StatusInternalServerError "invalid elapsedTime"
  | Some elapsedTime =>
  let st := timeTaken_Observe st elapsedTime in
  let response := FormValue r "response" in
  let redir := FormValue r "redir" in
  match rule_Difficulty (rule c) with
  | Panicked => Panicked
  | Returned difficulty =>
  let '(now, st) := Now wd st in
  let challenge := challengeFor s r difficulty now in
  match Strconv.Atoi nonceStr with
  | None =>
      serveError s st (ClearCookie []) StatusInternalServerError "invalid nonce"
  | Some nonce =>
  let calcString := challenge ++ Str.itoa nonce in
  let calculated := SHA256sum calcString in
  if negb (Str.ConstantTimeCompare response calculated =? 1) then
    serveError s (failedValidations_Inc st) (ClearCookie []) StatusForbidden
      "invalid response"
  else
  (* compare the leading zeroes; [strings.Repeat] panics on a negative count *)
  if difficulty <? 0 then Panicked
  else
  if negb (Str.HasPrefix response (Str.repeat_nat "0" (Z.to_nat difficulty))) then
    serveError s (failedValidations_Inc st) (ClearCookie []) StatusForbidden
      "invalid response"
  else
  (* generate JWT cookie *)
  let '(t_iat, st) := Now wd st in
  let '(t_nbf, st) := Now wd st in
  let '(t_exp, st) := Now wd st in
  match SignedString (priv s) (mintClaims challenge nonce response t_iat t_nbf t_exp) with
  | None =>
      serveError s st (ClearCookie []) StatusInternalServerError "failed to sign JWT"
  | Some tokenString =>
  let '(t_cookie, st) := Now wd st in
  let ckie :=
    {| Name := CookieName;
       Value := tokenString;
       Expires := Time.Add t_cookie (24 * 7 * Time.Hour);
       CSameSite := SameSiteLaxMode;
       Domain := CookieDomain (opts s);
       Partitioned := CookiePartitioned (opts s);
       Path := "/" |} in
  serve (challengesValidated_Inc st) [SetCookie ckie] (Redirect StatusFound redir)
  end end end end end end.

(** The denylist block of [MaybeReverseProxy]: [Some resp] when the page of
    a listing is served, [None] when the handler goes on.  On a miss the
    inner [resp, err := dnsbl.Lookup(ip)] declares new variables: the
    [resp] compared with [AllGood] below is the one of the cache. *)
Definition dnsblGate (s : Server) (wd : World) (st : State) (ip : string)
    : option Z * State :=
  if DNSBL (policy s) && negb (String.eqb ip "") then
    let '(now, st) := Now wd st in
    let '(got, cache) := Decaymap.Get (DNSBLCache st) ip now in
    let st := set_DNSBLCache st cache in
    let resp := default 0 got in
    let st :=
      match got with
      | None =>
          let '(resp', _) := dnsbl_Lookup wd ip in
          let '(now', st) := Now wd st in
          let st :=
            set_DNSBLCache st
              (Decaymap.Set_ (DNSBLCache st) ip resp' (24 * Time.Hour) now') in
          droneBLHits_Inc st resp'
      | Some _ => st
      end in
    if negb (resp =? AllGood) then (Some resp, st) else (None, st)
  else (None, st).

(** The full verification of [MaybeReverseProxy], from the type assertion
    on the claims to the end of the handler.  The assertion
    [token.Claims.(jwt.MapClaims)] holds for every token that
    [ParseWithClaims] returns, which was given a [MapClaims]; its failing
    branch is not in the model. *)
Definition verifyFull (s : Server) (wd : World) (st : State)
    (w : list CookieWrite) (r : Request) (rule : option Bot)
    (claims : gmap string any) : Outcome (Response * State) :=
  match rule_Difficulty rule with
  | Panicked => Panicked
  | Returned difficulty =>
  let '(now, st) := Now wd st in
  let challenge := challengeFor s r difficulty now in
  if negb (bool_decide (claim claims "challenge" = AString challenge)) then
    RenderIndex s wd st (ClearCookie w) r rule
  else
  let nonce :=
    match claim claims "nonce" with
    | AFloat64 v => int_of_float64 v
    | _ => 0
    end in
  let calcString := challenge ++ Str.itoa nonce in
  let calculated := SHA256sum calcString in
  (* [claims["response"].(string)] panics unless the claim is a string *)
  match claim claims "response" with
  | AString response =>
      if negb (Str.ConstantTimeCompare response calculated =? 1) then
        RenderIndex s wd (failedValidations_Inc st) (ClearCookie w) r rule
      else
        serve st w (Forward (Header_Add r "X-Anubis-Status" "PASS-FULL"))
  | _ => Panicked
  end
  end.

(** The part of [MaybeReverseProxy] that follows the [switch] on the
    action, for a rule that asks for a challenge: the session cookie is
    looked up, checked and parsed, and then either trusted on the coin of
    [randomJitter] or fully verified. *)
Definition checkSession (s : Server) (wd : World) (st : State)
    (w : list CookieWrite) (r : Request) (rule : option Bot)
    : Outcome (Response * State) :=
  match Request_Cookie r CookieName with
  | None => RenderIndex s wd st (ClearCookie w) r rule
  | Some ckie =>
  if negb (Cookie_Valid ckie) then RenderIndex s wd st (ClearCookie w) r rule
  else
  let '(now, st) := Now wd st in
  if Time.After now (Expires ckie) && negb (Time.IsZero (Expires ckie)) then
    RenderIndex s wd st (ClearCookie w) r rule
  else
  let '(now, st) := Now wd st in
  match ParseWithClaims (pub s) now (Value ckie) with
  | None => RenderIndex s wd st (ClearCookie w) r rule
  | Some claims =>
      if randomJitter wd then
        serve st w (Forward (Header_Add r "X-Anubis-Status" "PASS-BRIEF"))
      else verifyFull s wd st w r rule claims
  end
  end.

(** [Server.MaybeReverseProxy] *)
Definition MaybeReverseProxy (s : Server) (wd : World) (st : State) (r : Request)
    : Outcome (Response * State) :=
  match check (policy s) r with
  | Panicked => Panicked
  | Returned c =>
  match err c with
  | Some _ =>
      serveError s st [] StatusInternalServerError (misconfigured "maybeReverseProxy")
  | None =>
  let cr := result c in
  let rule := rule c in
  let r := Header_Add r "X-Anubis-Rule" (CRName cr) in
  let r := Header_Add r "X-Anubis-Action" (Rule_tag (CRRule cr)) in
  let st := Applications_Add st (CRName cr) (Rule_tag (CRRule cr)) in
  let ip := Header_Get r "X-Real-Ip" in
  match dnsblGate s wd st ip with
  | (Some resp, st) =>
      serveError s st [] StatusOK
        ("DroneBL reported an entry: " ++ DroneBLResponse_String resp
         ++ ", see https://dronebl.org/lookup?ip=" ++ ip)
  | (None, st) =>
  let w : list CookieWrite := [] in
  match CRRule cr with
  | RuleAllow => serve st w (Forward r)
  | RuleDeny =>
      let w := ClearCookie w in
      match rule with
      | None =>
          serveError s st w StatusInternalServerError
            "Other internal server error (contact the admin)"
      | Some b =>
          match Bot_Hash b with
          | Panicked => Panicked
          | Returned hash =>
              serveError s st w StatusOK ("Access Denied: error code " ++ hash)
          end
      end
  | RuleChallenge => checkSession s wd st w r rule
  | RuleBenchmark => RenderBench st w
  | RuleUnknown =>
      serveError s st (ClearCookie w) StatusInternalServerError
        "Other internal server error (contact the admin)"
  end
  end end end.

End Handlers.

(** ** Notions used in the statements *)

(** the predicate of rule [b] runs on [r] without error and gives [m] *)
Definition predicate (b : Bot) (r : Request) (m : bool) : Prop :=
  exists c, Rules b = Some c /\ Check c r = (m, None).

(** the evaluation [c] ended on rule [b] of the policy: without error, and
    with a rule that has a predicate, which the synthetic rule of the
    default path has not *)
Definition matched (c : Checked) (b : Bot) : Prop :=
  err c = None /\ rule c = Some b /\ is_Some (Rules b).

(** the policy with another list of rules *)
Definition with_Bots (p : ParsedConfig) (bots : list Bot) : ParsedConfig :=
  {| Bots := bots; DNSBL := DNSBL p; DefaultDifficulty := DefaultDifficulty p |}.

(** The listing that stops a request at the denylist gate: the value of an
    entry of the cache for this address that has not expired and is not
    [AllGood], when the policy enables the denylist. *)
Definition listed `{Ext : Externals} (s : Server) (wd : World) (st : State)
    (ip : string) : option Z :=
  if DNSBL (policy s) && negb (String.eqb ip "") then
    match DNSBLCache st !! ip with
    | Some (v, expiry) =>
        if expiry <=? clock wd (tick st) then None
        else if v =? AllGood then None else Some v
    | None => None
    end
  else None.

(** the request with the headers [X-Anubis-Rule] and [X-Anubis-Action]
    that the handler adds to it *)
Definition stamped (r : Request) (cr : CheckResult) : Request :=
  Header_Add (Header_Add r "X-Anubis-Rule" (CRName cr))
             "X-Anubis-Action" (Rule_tag (CRRule cr)).

(** The gating handler reaches the full verification of a session token:
    the policy asks for a challenge with rule [b], the denylist gate lets
    the request through and leaves the state [st2], the session cookie is
    present, well formed and not expired, its token parses under the
    server's public key with the claims [claims], and the coin of the fast
    path comes out false. *)
Definition reaches_verification `{Ext : Externals}
    (s : Server) (wd : World) (st : State) (r : Request)
    (c : Checked) (b : Bot) (claims : gmap string any) (st2 : State) : Prop :=
  check (policy s) r = Returned c
  /\ err c = None
  /\ CRRule (result c) = RuleChallenge
  /\ rule c = Some b
  /\ dnsblGate s wd
       (Applications_Add st (CRName (result c)) (Rule_tag (CRRule (result c))))
       (Header_Get r "X-Real-Ip")
     = (None, st2)
  /\ (exists ckie,
        Request_Cookie r CookieName = Some ckie
        /\ Cookie_Valid ckie = true
        /\ Time.After (clock wd (tick st2)) (Expires ckie)
           && negb (Time.IsZero (Expires ckie)) = false
        /\ ParseWithClaims (pub s) (clock wd (S (tick st2))) (Value ckie)
           = Some claims)
  /\ randomJitter wd = false.

(** Decimal fields of fixed width, as [appendInt] writes the numbers below
    100 with width 2 and below 10000 with width 4. *)
Module Fields.

(** the character of a decimal digit *)
Definition dig (x : Z) : ascii := Str.char_of (48 + x).

Definition two (x : Z) : string :=
  String (dig (x / 10)) (String (dig (x mod 10)) EmptyString).

Definition four (x : Z) : string :=
  String (dig (x / 1000)) (String (dig (x / 100 mod 10))
    (String (dig (x / 10 mod 10)) (String (dig (x mod 10)) EmptyString))).

End Fields.

(** ** Test doubles *)

(** A stand-in for the libraries, to run the handlers on concrete
    requests: keys are strings, a token is its claims in clear
    ([challenge.response.iat.nbf.exp], an empty field for a claim that is
    absent), every cookie is well formed. *)
Module Demo.

(** the text before the first dot, and the text after it *)
Fixpoint cut (s : string) : string * string :=
  match s with
  | EmptyString => (EmptyString, EmptyString)
  | String c s' =>
      if Ascii.eqb c "."%char then (EmptyString, s')
      else let '(a, b) := cut s' in (String c a, b)
  end.

Definition show (v : any) : string :=
  match v with
  | AString s => s
  | AInt n | AInt64 n => Str.itoa n
  | _ => ""
  end.

Definition sign (key : string) (claims : gmap string any) : option string :=
  Some (show (claim claims "challenge") ++ "." ++ show (claim claims "response")
        ++ "." ++ show (claim claims "iat") ++ "." ++ show (claim claims "nbf")
        ++ "." ++ show (claim claims "exp")).

Definition field (key value : string) (m : gmap string any) : gmap string any :=
  if String.eqb value "" then m else <[key := AString value]> m.

Definition parse (key : string) (now : Z) (token : string) : option (gmap string any) :=
  let '(challenge, rest) := cut token in
  let '(response, _) := cut rest in
  Some (field "challenge" challenge (field "response" response ∅)).

#[export] Instance ext : Externals := {|
  PrivateKey := string;
  PublicKey := string;
  Seed := fun k => k;
  Public := fun k => k;
  SignedString := sign;
  ParseWithClaims := parse;
  ParseFloat := fun s => if String.eqb s "420" then Some 0x407A400000000000 else None;
  int_of_float64 := fun _ => 0;
  Cookie_Valid := fun _ => true;
  CookieName := "within.website-x-cmd-anubis-auth";
  DroneBLResponse_String := fun resp => "DroneBLResponse(" ++ Str.itoa resp ++ ")";
  BaseWithChallengeAndOGTags := fun _ _ _ => true;
|}.

Definition key : string := "0123456789abcdef0123456789abcdef".

Definition always (action : Rule) (name : string) : Bot :=
  {| BName := name; Action := action; Challenge := None;
     Rules := Some {| Check := fun _ => (true, None); Hash := "always" |} |}.

(** a rule that asks every request for a challenge of difficulty 4 *)
Definition challenging (name : string) : Bot :=
  {| BName := name; Action := RuleChallenge;
     Challenge := Some {| Difficulty := 4; ReportAs := 4; Algo := AlgorithmFast |};
     Rules := Some {| Check := fun _ => (true, None); Hash := "always" |} |}.

Definition never (action : Rule) (name : string) : Bot :=
  {| BName := name; Action := action; Challenge := None;
     Rules := Some {| Check := fun _ => (false, None); Hash := "never" |} |}.

Definition server (bots : list Bot) (dnsbl : bool) (difficulty : Z) : Server :=
  {| priv := key; pub := key;
     policy := {| Bots := bots; DNSBL := dnsbl; DefaultDifficulty := difficulty |};
     opts := {| CookieDomain := "local.cetacean.club"; CookiePartitioned := true;
                OGPassthrough := false; WebmasterEmail := "admin@example.org" |} |}.

(** 2025-11-01T12:26:40Z, a Saturday *)
Definition saturday : Z := 1762000000 * Time.Second.

(** a clock that advances by [step] nanoseconds at each reading *)
Definition world (start step : Z) (jitter : bool) (lookup : Z * option string) : World :=
  {| clock := fun n => start + Z.of_nat n * step;
     randomJitter := jitter;
     dnsbl_Lookup := fun _ => lookup;
     GetOGTags := fun _ => (∅, None) |}.

Definition state (cache : gmap string (Z * Z)) : State :=
  {| tick := 0; DNSBLCache := cache; failedValidations := 0;
     challengesValidated := 0; timeTaken := []; droneBLHits := [];
     Applications := [] |}.

Definition request (ip : string) (form : gmap string (list string))
    (cookies : list Cookie) : Request :=
  {| Header := {[ "X-Real-Ip" := [ip]; "User-Agent" := ["curl/8.5.0"] ]};
     Form := form; URL := "/"; Cookies := cookies |}.

(** the form of a pass: nonce 0, 420 ms, the given response *)
Definition pass_form (response : string) : gmap string (list string) :=
  {[ "nonce" := ["0"]; "elapsedTime" := ["420"]; "response" := [response];
     "redir" := ["/"] ]}.

Definition session (value : string) : Cookie :=
  {| Name := "within.website-x-cmd-anubis-auth"; Value := value;
     Expires := Time.zero; CSameSite := SameSiteDefaultMode; Domain := "";
     Partitioned := false; Path := "" |}.

End Demo.

(** * Properties *)

(** ** The ported library functions on known values *)

Example SHA256_constants :
  length SHA256.K = 64%nat /\ nth 0 SHA256.K 0 = 0x428a2f98
  /\ nth 63 SHA256.K 0 = 0xc67178f2 /\ SHA256.ra SHA256.H0 = 0x6a09e667
  /\ SHA256.rh SHA256.H0 = 0x5be0cd19.
Proof. repeat split. Qed.

Example SHA256sum_empty :
  SHA256sum "" = "e3b0c44298fc1c149afbf4c8996fb92427ae41e4649b934ca495991b7852b855".
Proof. vm_compute. reflexivity. Qed.

Example SHA256sum_abc :
  SHA256sum "abc" = "ba7816bf8f01cfea414140de5dae2223b00361a396177a9cb410ff61f20015ad".
Proof. vm_compute. reflexivity. Qed.

Example SHA256sum_two_blocks :
  SHA256sum "aaaaaaaaaaaaaaaaaaaaaaaaaaaaaaaaaaaaaaaaaaaaaaaaaaaaaaaa"
  = "b35439a4ac6f0948b6d6f9e3c6af0f5f590ce20f1bde7090ef7970686ec6738a".
Proof. vm_compute. reflexivity. Qed.

Example itoa_samples :
  Str.itoa 0 = "0" /\ Str.itoa 4 = "4" /\ Str.itoa 1207 = "1207" /\ Str.itoa (-35) = "-35"
  /\ Str.pad 2 7 = "07" /\ Str.pad 4 2025 = "2025" /\ Str.pad 4 33 = "0033".
Proof. repeat split; reflexivity. Qed.

Example FormatRFC3339_samples :
  Time.FormatRFC3339 0 = "1970-01-01T00:00:00Z"
  /\ Time.FormatRFC3339 (1700000000 * Time.Second + 5) = "2023-11-14T22:13:20Z"
  /\ Time.FormatRFC3339 (951782400 * Time.Second) = "2000-02-29T00:00:00Z"
  /\ Time.FormatRFC3339 (1709251199 * Time.Second) = "2024-02-29T23:59:59Z"
  /\ Time.FormatRFC3339 Time.zero = "0001-01-01T00:00:00Z".
Proof. repeat split; vm_compute; reflexivity. Qed.

Example Round_samples :
  Time.Round (1700000000 * Time.Second) (24 * 7 * Time.Hour)
    = 1699833600 * Time.Second
  /\ Time.Round (1762000000 * Time.Second) (24 * 7 * Time.Hour)
    = 1762128000 * Time.Second
  /\ Time.Round 0 (24 * 7 * Time.Hour) = -259200 * Time.Second.
Proof. repeat split; vm_compute; reflexivity. Qed.

Example Atoi_samples :
  Strconv.Atoi "0" = Some 0 /\ Strconv.Atoi "-17" = Some (-17)
  /\ Strconv.Atoi "+5" = Some 5 /\ Strconv.Atoi "" = None
  /\ Strconv.Atoi "1_0" = None /\ Strconv.Atoi "-" = None
  /\ Strconv.Atoi "9223372036854775808" = None
  /\ Strconv.Atoi "-9223372036854775808" = Some (-9223372036854775808).
Proof. repeat split; vm_compute; reflexivity. Qed.

Example ParseIP_samples :
  Net.ParseIP "127.0.0.1" = Some [0; 0; 0; 0; 0; 0; 0; 0; 0; 0; 255; 255; 127; 0; 0; 1]
  /\ Net.ParseIP "::1" = Some [0; 0; 0; 0; 0; 0; 0; 0; 0; 0; 0; 0; 0; 0; 0; 1]
  /\ Net.ParseIP "2001:db8::8a2e:370:7334"
     = Some [32; 1; 13; 184; 0; 0; 0; 0; 0; 0; 138; 46; 3; 112; 115; 52]
  /\ Net.ParseIP "::ffff:1.2.3.4" = Some [0; 0; 0; 0; 0; 0; 0; 0; 0; 0; 255; 255; 1; 2; 3; 4]
  /\ Net.ParseIP "1:2:3:4:5:6:7::" = Some [0; 1; 0; 2; 0; 3; 0; 4; 0; 5; 0; 6; 0; 7; 0; 0]
  /\ Net.ParseIP "::" = Some (repeat 0 16).
Proof. repeat split; vm_compute; reflexivity. Qed.

Example ParseIP_rejects :
  Forall (fun s => Net.ParseIP s = None)
    [ ""; "localhost"; "1.2.3"; "1.2.3.4.5"; "01.2.3.4"; "256.1.1.1"; "1..2.3";
      "1.2.3.4 "; "fe80::1%eth0"; "1:2:3:4:5:6:7:8:9"; "1::2::3"; "1:2:3:4:5:6:7:8::";
      "12345::"; ":1"; "1:"; "1.2.3.4:80"; "::1.2.3"; "1:2:3:4:5:6:7" ].
Proof. repeat constructor. Qed.

(** ** The policy evaluator *)

Lemma ParseIP_empty : Net.ParseIP "" = None.
Proof. reflexivity. Qed.

Lemma check_valid_host (p : ParsedConfig) (r : Request) (ip : list Z) :
  Net.ParseIP (Header_Get r "X-Real-Ip") = Some ip ->
  check p r = check_bots p (Bots p) r [].
Proof.
  intros Hip. unfold check.
  destruct (String.eqb_spec (Header_Get r "X-Real-Ip") "") as [E|_].
  - rewrite E in Hip. discriminate.
  - now rewrite Hip.
Qed.

Lemma check_bots_with_Bots (p : ParsedConfig) (l bots : list Bot) (r : Request)
    (seen : list string) :
  check_bots (with_Bots p l) bots r seen = check_bots p bots r seen.
Proof.
  revert seen. induction bots as [|b bots IH]; intros seen; simpl; [reflexivity|].
  destruct (Rules b) as [c|]; [|reflexivity].
  destruct (Check c r) as [[|] [e|]]; auto.
Qed.

Lemma check_bots_first (p : ParsedConfig) (r : Request) (b : Bot) (post : list Bot) :
  predicate b r true ->
  forall (pre : list Bot) (seen : list string),
  Forall (fun b' => predicate b' r false) pre ->
  check_bots p (pre ++ b :: post) r seen
  = Returned {| result := cr ("bot/" ++ BName b) (Action b); rule := Some b;
                err := None;
                evaluated := (seen ++ map BName pre ++ [BName b])%list |}.
Proof.
  intros (c & Hc & Hm). induction pre as [|b' pre IH]; intros seen Hpre; simpl.
  - now rewrite Hc, Hm.
  - inversion Hpre as [|? ? (c' & Hc' & Hm') Hrest]; subst.
    rewrite Hc', Hm', IH by assumption.
    now rewrite <- app_assoc.
Qed.

Lemma check_bots_none (p : ParsedConfig) (r : Request) :
  forall (bots : list Bot) (seen : list string),
  Forall (fun b => predicate b r false) bots ->
  check_bots p bots r seen
  = Returned {| result := cr "default/allow" RuleAllow;
                rule := Some (default_bot p); err := None;
                evaluated := (seen ++ map BName bots)%list |}.
Proof.
  induction bots as [|b bots IH]; intros seen Hall; simpl.
  - now rewrite app_nil_r.
  - inversion Hall as [|? ? (c & Hc & Hm) Hrest]; subst.
    rewrite Hc, Hm, IH by assumption.
    now rewrite <- app_assoc.
Qed.

(** An evaluation that ends without error hands a rule to the caller. *)
Lemma check_bots_rule (p : ParsedConfig) (r : Request) :
  forall (bots : list Bot) (seen : list string) (c : Checked),
  check_bots p bots r seen = Returned c -> err c = None -> is_Some (rule c).
Proof.
  induction bots as [|b bots IH]; intros seen c; simpl.
  - intros [= <-] _. now eexists.
  - destruct (Rules b) as [k|]; [|discriminate].
    destruct (Check k r) as [[|] [e|]]; try (intros [= <-]; simpl; try discriminate; now eexists).
    apply IH.
Qed.

Lemma check_rule (p : ParsedConfig) (r : Request) (c : Checked) :
  check p r = Returned c -> err c = None -> is_Some (rule c).
Proof.
  unfold check. destruct (String.eqb _ _); [intros [= <-]; discriminate|].
  destruct (Net.ParseIP _); [|intros [= <-]; discriminate].
  apply check_bots_rule.
Qed.

(** A rule that [check_bots] returns is the first of the list whose
    predicate matches. *)
Lemma check_bots_sound (p : ParsedConfig) (r : Request) (b : Bot) :
  forall (bots : list Bot) (seen : list string) (c : Checked),
  check_bots p bots r seen = Returned c ->
  matched c b ->
  exists pre post,
    bots = (pre ++ b :: post)%list
    /\ Forall (fun b' => predicate b' r false) pre
    /\ predicate b r true
    /\ result c = cr ("bot/" ++ BName b) (Action b)
    /\ evaluated c = (seen ++ map BName pre ++ [BName b])%list.
Proof.
  induction bots as [|b' bots IH]; intros seen c; simpl.
  - intros [= <-] (_ & [= <-] & [k Hk]). discriminate Hk.
  - destruct (Rules b') as [k|] eqn:Hk; [|discriminate].
    destruct (Check k r) as [[|] [e|]] eqn:Hm.
    + intros [= <-] (He & _). discriminate He.
    + intros [= <-] (_ & [= <-] & _).
      exists [], bots. repeat split; try reflexivity; [constructor|].
      exists k. now split.
    + intros [= <-] (He & _). discriminate He.
    + intros Hc Hmatch.
      destruct (IH _ _ Hc Hmatch) as (pre & post & -> & Hpre & Hb & Hres & Hev).
      exists (b' :: pre), post. repeat split; try assumption.
      * constructor; [|assumption]. exists k. now split.
      * rewrite Hev. simpl. now rewrite <- app_assoc.
Qed.

Lemma check_matched_host (p : ParsedConfig) (r : Request) (c : Checked) (b : Bot) :
  check p r = Returned c -> matched c b ->
  exists ip, Net.ParseIP (Header_Get r "X-Real-Ip") = Some ip.
Proof.
  unfold check. intros H (He & _).
  destruct (String.eqb _ _); [injection H as <-; discriminate|].
  destruct (Net.ParseIP _) as [ip|]; [now exists ip|].
  injection H as <-. discriminate.
Qed.

(** C4. For every request and every list of rules, a rule that [check]
    returns is the first rule, in declaration order, whose predicate
    matches: the rules before it were evaluated and did not match, it
    matched, and no rule after it was evaluated.  Conversely, for a request
    whose client address parses, the first rule whose predicate matches is
    returned, as [("bot/" + b.Name, b.Action)].  So appending rules to a
    policy in which a rule already matches leaves the result of the
    evaluation unchanged. *)
Theorem check_first_match (p : ParsedConfig) (r : Request) :
  (forall (c : Checked) (b : Bot),
     check p r = Returned c -> matched c b ->
     exists pre post,
       Bots p = (pre ++ b :: post)%list
       /\ Forall (fun b' => predicate b' r false) pre
       /\ predicate b r true
       /\ result c = {| CRName := "bot/" ++ BName b; CRRule := Action b |}
       /\ evaluated c = (map BName pre ++ [BName b])%list)
  /\ (forall (ip : list Z) (pre post : list Bot) (b : Bot),
       Net.ParseIP (Header_Get r "X-Real-Ip") = Some ip ->
       Bots p = (pre ++ b :: post)%list ->
       Forall (fun b' => predicate b' r false) pre ->
       predicate b r true ->
       check p r
       = Returned {| result := {| CRName := "bot/" ++ BName b; CRRule := Action b |};
                     rule := Some b; err := None;
                     evaluated := (map BName pre ++ [BName b])%list |})
  /\ (forall (c : Checked) (b : Bot) (extra : list Bot),
       check p r = Returned c -> matched c b ->
       check (with_Bots p (Bots p ++ extra)) r = Returned c).
Proof.
  assert (Hfirst : forall ip pre post b,
    Net.ParseIP (Header_Get r "X-Real-Ip") = Some ip ->
    Forall (fun b' => predicate b' r false) pre ->
    predicate b r true ->
    forall q, Bots q = (pre ++ b :: post)%list ->
    check q r
    = Returned {| result := {| CRName := "bot/" ++ BName b; CRRule := Action b |};
                  rule := Some b; err := None;
                  evaluated := (map BName pre ++ [BName b])%list |}).
  { intros ip pre post b Hip Hpre Hb q Hq.
    rewrite (check_valid_host q r ip Hip), Hq.
    now rewrite (check_bots_first q r b post Hb pre [] Hpre). }
  assert (Hsound : forall c b,
    check p r = Returned c -> matched c b ->
    exists pre post,
      Bots p = (pre ++ b :: post)%list
      /\ Forall (fun b' => predicate b' r false) pre
      /\ predicate b r true
      /\ result c = {| CRName := "bot/" ++ BName b; CRRule := Action b |}
      /\ evaluated c = (map BName pre ++ [BName b])%list).
  { intros c b Hc Hm.
    destruct (check_matched_host p r c b Hc Hm) as [ip Hip].
    rewrite (check_valid_host p r ip Hip) in Hc.
    exact (check_bots_sound p r b (Bots p) [] c Hc Hm). }
  split; [exact Hsound|]. split.
  - intros ip pre post b Hip Hbots Hpre Hb.
    exact (Hfirst ip pre post b Hip Hpre Hb p Hbots).
  - intros c b extra Hc Hm.
    destruct (check_matched_host p r c b Hc Hm) as [ip Hip].
    destruct (Hsound c b Hc Hm) as (pre & post & Hbots & Hpre & Hb & _).
    rewrite <- Hc.
    rewrite (Hfirst ip pre post b Hip Hpre Hb p Hbots).
    apply (Hfirst ip pre (post ++ extra)%list b Hip Hpre Hb).
    simpl. now rewrite Hbots, <- app_assoc.
Qed.

(** C5. For a request whose client address parses and that no rule
    matches, [check] returns the result named ["default/allow"] with action
    allow and a synthetic rule whose challenge parameters carry the
    policy's default difficulty as [Difficulty] and as [ReportAs], with the
    fast algorithm; so for a default difficulty [D] between 1 and 9 both
    are [D]. *)
Theorem check_default (p : ParsedConfig) (r : Request) (ip : list Z) :
  Net.ParseIP (Header_Get r "X-Real-Ip") = Some ip ->
  Forall (fun b => predicate b r false) (Bots p) ->
  exists (bot : Bot) (ch : ChallengeRules) (names : list string),
    check p r
    = Returned {| result := {| CRName := "default/allow"; CRRule := RuleAllow |};
                  rule := Some bot; err := None; evaluated := names |}
    /\ Challenge bot = Some ch
    /\ Difficulty ch = DefaultDifficulty p
    /\ ReportAs ch = DefaultDifficulty p
    /\ Algo ch = AlgorithmFast
    /\ (forall D, 1 <= D <= 9 -> DefaultDifficulty p = D ->
        Difficulty ch = D /\ ReportAs ch = D).
Proof.
  intros Hip Hall.
  exists (default_bot p),
    {| Difficulty := DefaultDifficulty p; ReportAs := DefaultDifficulty p;
       Algo := AlgorithmFast |}, (map BName (Bots p)).
  rewrite (check_valid_host p r ip Hip), (check_bots_none p r (Bots p) [] Hall).
  simpl. repeat split; auto.
Qed.

(** ** The misconfiguration error *)

Lemma Header_Get_Add_ne (r : Request) (k k' v : string) :
  k <> k' -> Header_Get (Header_Add r k v) k' = Header_Get r k'.
Proof.
  intros Hne. unfold Header_Get, values_Get, Header_Add. simpl.
  now rewrite lookup_insert_ne.
Qed.

Lemma check_bots_errors (p : ParsedConfig) (r : Request) :
  forall (bots : list Bot) (seen : list string) (c : Checked) (e : error),
  check_bots p bots r seen = Returned c -> err c = Some e ->
  misconfiguration e = false.
Proof.
  induction bots as [|b bots IH]; intros seen c e; simpl.
  - intros [= <-]. discriminate.
  - destruct (Rules b) as [k|]; [|discriminate].
    destruct (Check k r) as [[|] [e'|]];
      try (intros [= <-]; simpl; intros [= <-]; reflexivity);
      try (intros [= <-]; discriminate).
    apply IH.
Qed.

Lemma check_invalid_host (p : ParsedConfig) (r : Request) :
  Header_Get r "X-Real-Ip" = "" \/ Net.ParseIP (Header_Get r "X-Real-Ip") = None ->
  exists e, misconfiguration e = true
    /\ check p r = Returned {| result := Zilch_CheckResult; rule := None;
                               err := Some e; evaluated := [] |}.
Proof.
  intros H. unfold check.
  destruct (String.eqb_spec (Header_Get r "X-Real-Ip") "") as [E|NE].
  - exists ErrHeaderNotSet. now split.
  - destruct H as [H|H]; [contradiction|]. rewrite H.
    exists (ErrNotAnIP (Header_Get r "X-Real-Ip")). now split.
Qed.

(** C6, as the code has it.  [check] fails with a misconfiguration error
    exactly when the [X-Real-Ip] header is absent (or empty) or is not an
    IP address for [net.ParseIP], which takes IPv4 and IPv6 addresses; in
    that case no rule predicate is evaluated, no rule is returned, and the
    gating handler answers 500 with the diagnostic page. *)
Theorem check_misconfiguration `{Ext : Externals}
    (s : Server) (wd : World) (st : State) (r : Request) :
  let host := Header_Get r "X-Real-Ip" in
  ((exists c e, check (policy s) r = Returned c /\ err c = Some e
                /\ misconfiguration e = true)
   <-> (host = "" \/ Net.ParseIP host = None))
  /\ (host = "" \/ Net.ParseIP host = None ->
      (exists c, check (policy s) r = Returned c /\ evaluated c = []
                 /\ rule c = None)
      /\ MaybeReverseProxy s wd st r
         = Returned ({| cookies := [];
                        reply := Render 500
                          (ErrorPage (misconfigured "maybeReverseProxy")
                                     (WebmasterEmail (opts s))) |}, st)).
Proof.
  intros host. split; [split|].
  - intros (c & e & Hc & He & Hm).
    destruct (Net.ParseIP host) as [ip|] eqn:Hip; [|now right].
    rewrite (check_valid_host _ r ip Hip) in Hc.
    rewrite (check_bots_errors _ _ _ _ _ _ Hc He) in Hm. discriminate.
  - intros H. destruct (check_invalid_host (policy s) r H) as (e & Hm & Hc).
    eexists _, e. repeat split; eauto.
  - intros H. destruct (check_invalid_host (policy s) r H) as (e & Hm & Hc).
    split.
    + eexists. split; [exact Hc|]. now split.
    + unfold MaybeReverseProxy. rewrite Hc. reflexivity.
Qed.

(** C6, as the claim has it, fails on an IPv6 address: [::1] is not a
    dotted IPv4 address, and [check] does not fail on it. *)
Lemma check_accepts_IPv6 :
  let r := Demo.request "::1" ∅ [] in
  let p := {| Bots := []; DNSBL := false; DefaultDifficulty := 4 |} in
  Net.parseIPv4 (Header_Get r "X-Real-Ip") = None
  /\ check p r
     = Returned {| result := cr "default/allow" RuleAllow;
                   rule := Some (default_bot p); err := None; evaluated := [] |}
  /\ ~ (exists c e, check p r = Returned c /\ err c = Some e
                    /\ misconfiguration e = true).
Proof.
  assert (Hc : check {| Bots := []; DNSBL := false; DefaultDifficulty := 4 |}
                 (Demo.request "::1" ∅ [])
               = Returned {| result := cr "default/allow" RuleAllow;
                   rule := Some (default_bot {| Bots := []; DNSBL := false;
                                                DefaultDifficulty := 4 |});
                   err := None; evaluated := [] |}) by reflexivity.
  cbv zeta. split; [reflexivity|]. split; [exact Hc|].
  intros (c & e & Hc' & He & _). rewrite Hc in Hc'.
  injection Hc' as <-. discriminate.
Qed.

(** ** The denylist gate and the deny page *)

Lemma dnsblGate_listed `{Ext : Externals} (s : Server) (wd : World) (st : State)
    (ip : string) :
  fst (dnsblGate s wd st ip) = listed s wd st ip.
Proof.
  unfold dnsblGate, listed, Decaymap.Get.
  destruct (DNSBL (policy s) && negb (String.eqb ip "")); [|reflexivity].
  simpl. destruct (DNSBLCache st !! ip) as [[v expiry]|]; simpl.
  - destruct (expiry <=? clock wd (tick st)); simpl.
    + now destruct (dnsbl_Lookup wd ip).
    + now destruct (v =? AllGood).
  - now destruct (dnsbl_Lookup wd ip).
Qed.

(** A result with action deny comes from a rule of the policy whose
    predicate was evaluated. *)
Lemma check_bots_deny (p : ParsedConfig) (r : Request) :
  forall (bots : list Bot) (seen : list string) (c : Checked),
  check_bots p bots r seen = Returned c -> err c = None ->
  CRRule (result c) = RuleDeny ->
  exists b k, rule c = Some b /\ Rules b = Some k /\ Action b = RuleDeny
              /\ CRName (result c) = "bot/" ++ BName b /\ Check k r = (true, None).
Proof.
  induction bots as [|b bots IH]; intros seen c; simpl.
  - intros [= <-] _. discriminate.
  - destruct (Rules b) as [k|] eqn:Hk; [|discriminate].
    destruct (Check k r) as [[|] [e|]] eqn:Hm;
      try (intros [= <-]; discriminate).
    + intros [= <-] _ Hd. simpl in *. now exists b, k.
    + apply IH.
Qed.

Lemma check_deny (p : ParsedConfig) (r : Request) (c : Checked) :
  check p r = Returned c -> err c = None -> CRRule (result c) = RuleDeny ->
  exists b k, rule c = Some b /\ Rules b = Some k /\ Action b = RuleDeny
              /\ CRName (result c) = "bot/" ++ BName b /\ Check k r = (true, None).
Proof.
  unfold check. destruct (String.eqb _ _); [intros [= <-]; discriminate|].
  destruct (Net.ParseIP _); [|intros [= <-]; discriminate].
  apply check_bots_deny.
Qed.

(** C7, as the code has it.  For a request that a rule with action deny
    matches and that the denylist gate lets through (the denylist is off,
    or the cache holds no live listing for the client address), the
    gating handler clears the cookie and answers with status 200 and the
    error page whose message ends with the hex SHA-256 of
    ["<rule-name>::<predicate-stable-hash>"]. *)
Theorem deny_page `{Ext : Externals}
    (s : Server) (wd : World) (st : State) (r : Request) (c : Checked) :
  check (policy s) r = Returned c ->
  err c = None ->
  CRRule (result c) = RuleDeny ->
  listed s wd st (Header_Get r "X-Real-Ip") = None ->
  exists (b : Bot) (k : Checker) (st' : State),
    rule c = Some b /\ Rules b = Some k /\ Action b = RuleDeny
    /\ Check k r = (true, None)
    /\ MaybeReverseProxy s wd st r
       = Returned ({| cookies := [Cleared];
                      reply := Render 200
                        (ErrorPage ("Access Denied: error code "
                                    ++ SHA256sum (BName b ++ "::" ++ Hash k))
                                   (WebmasterEmail (opts s))) |}, st').
Proof.
  intros Hc He Hd Hl.
  destruct (check_deny _ _ _ Hc He Hd) as (b & k & Hr & Hk & Ha & _ & Hm).
  exists b, k. unfold MaybeReverseProxy. rewrite Hc, He.
  cbv zeta. rewrite !Header_Get_Add_ne by discriminate.
  pose proof (dnsblGate_listed s wd
    (Applications_Add st (CRName (result c)) (Rule_tag (CRRule (result c))))
    (Header_Get r "X-Real-Ip")) as Hg.
  change (listed s wd (Applications_Add st _ _) (Header_Get r "X-Real-Ip"))
    with (listed s wd st (Header_Get r "X-Real-Ip")) in Hg.
  rewrite Hl in Hg.
  destruct (dnsblGate s wd _ (Header_Get r "X-Real-Ip")) as [hit st1].
  simpl in Hg. subst hit. exists st1.
  rewrite Hd, Hr. unfold Bot_Hash. rewrite Hk.
  repeat split; assumption || reflexivity.
Qed.

(** C7, as the claim has it, fails behind the denylist gate: with the
    denylist on and a live listing for the client address in the cache, a
    request that a deny rule matches gets the page of the listing, and no
    cookie is cleared. *)
Lemma deny_behind_denylist :
  let s := Demo.server [Demo.always RuleDeny "bad"] true 4 in
  let st := Demo.state {[ "203.0.113.9" := (3, Demo.saturday + 24 * Time.Hour) ]} in
  let wd := Demo.world Demo.saturday 1 false (0, None) in
  let r := Demo.request "203.0.113.9" ∅ [] in
  (exists c, check (policy s) r = Returned c /\ err c = None
             /\ result c = cr "bot/bad" RuleDeny)
  /\ exists st',
       MaybeReverseProxy s wd st r
       = Returned ({| cookies := [];
                      reply := Render 200
                        (ErrorPage "DroneBL reported an entry: DroneBLResponse(3), see https://dronebl.org/lookup?ip=203.0.113.9"
                                   "admin@example.org") |}, st').
Proof.
  cbv zeta. split.
  - eexists. split; [reflexivity|]. split; reflexivity.
  - eexists. vm_compute. reflexivity.
Qed.

(** ** The pass endpoint *)

Lemma ConstantTimeCompare_1 (x y : string) :
  (Str.ConstantTimeCompare x y =? 1) = true <-> x = y.
Proof.
  unfold Str.ConstantTimeCompare.
  destruct (String.eqb_spec x y); split; intros; try easy.
Qed.

Lemma Atoi_empty : Strconv.Atoi "" = None.
Proof. reflexivity. Qed.

(** C1. On the pass endpoint the answer is 302 only for a request that
    the policy evaluator accepts, whose [nonce] parses and whose [response]
    both equals [SHA256sum(challenge + decimal(nonce))] for the recomputed
    challenge and begins with [D] characters [0], [D] being the difficulty
    of the matched rule.  And for a request that the evaluator accepts
    with a rule of difficulty [D >= 0], whose [nonce] and [elapsedTime]
    parse, with a key that signs: the answer is 302, with the session
    cookie set, exactly when the two checks pass; otherwise it is 403, the
    failure counter is incremented and the cookie is cleared.  In
    particular at [D = 4] and [nonce = 0] a [response] that is the right
    hash but lacks four leading zeros is answered 403. *)
Theorem PassChallenge_validates `{Ext : Externals}
    (s : Server) (wd : World) (st : State) (r : Request) :
  let response := FormValue r "response" in
  let valid (D nonce : Z) :=
    response
    = SHA256sum (challengeFor s r D (clock wd (tick st)) ++ Str.itoa nonce)
    /\ Str.HasPrefix response (Str.repeat_nat "0" (Z.to_nat D)) = true in
  (forall (resp : Response) (st' : State),
     PassChallenge s wd st r = Returned (resp, st') ->
     status_of (reply resp) = Some 302 ->
     exists c b ch nonce,
       check (policy s) r = Returned c /\ err c = None /\ rule c = Some b
       /\ Challenge b = Some ch
       /\ Strconv.Atoi (FormValue r "nonce") = Some nonce
       /\ valid (Difficulty ch) nonce)
  /\ (forall (c : Checked) (b : Bot) (ch : ChallengeRules) (nonce elapsed : Z),
       check (policy s) r = Returned c ->
       err c = None ->
       rule c = Some b ->
       Challenge b = Some ch ->
       0 <= Difficulty ch ->
       Strconv.Atoi (FormValue r "nonce") = Some nonce ->
       FormValue r "elapsedTime" <> "" ->
       ParseFloat (FormValue r "elapsedTime") = Some elapsed ->
       (forall claims, SignedString (priv s) claims <> None) ->
       exists (resp : Response) (st' : State),
         PassChallenge s wd st r = Returned (resp, st')
         /\ (status_of (reply resp) = Some 302 <-> valid (Difficulty ch) nonce)
         /\ (valid (Difficulty ch) nonce ->
             reply resp = Redirect 302 (FormValue r "redir")
             /\ (exists ck, cookies resp = [SetCookie ck])
             /\ failedValidations st' = failedValidations st)
         /\ (~ valid (Difficulty ch) nonce ->
             status_of (reply resp) = Some 403
             /\ cookies resp = [Cleared]
             /\ failedValidations st' = failedValidations st + 1)
         /\ (Difficulty ch = 4 -> nonce = 0 ->
             response
             = SHA256sum (challengeFor s r 4 (clock wd (tick st)) ++ "0") ->
             Str.HasPrefix response "0000" = false ->
             status_of (reply resp) = Some 403)).
Proof.
  intros response valid. split.
  - intros resp st' Hrun Hst.
    unfold PassChallenge in Hrun.
    destruct (check (policy s) r) as [c|] eqn:Hc; [|discriminate].
    destruct (err c) eqn:He; [injection Hrun as <- <-; discriminate|].
    destruct (String.eqb (FormValue r "nonce") "");
      [injection Hrun as <- <-; discriminate|].
    destruct (String.eqb (FormValue r "elapsedTime") "");
      [injection Hrun as <- <-; discriminate|].
    destruct (ParseFloat (FormValue r "elapsedTime")) as [elapsed|];
      [|injection Hrun as <- <-; discriminate].
    unfold rule_Difficulty in Hrun.
    destruct (rule c) as [b|] eqn:Hr; [|discriminate].
    destruct (Challenge b) as [ch|] eqn:Hch; [|discriminate].
    cbn [Now fst snd] in Hrun.
    destruct (Strconv.Atoi (FormValue r "nonce")) as [nonce|] eqn:Hn;
      [|injection Hrun as <- <-; discriminate].
    destruct (Str.ConstantTimeCompare _ _ =? 1) eqn:Heq; cbn [negb] in Hrun;
      [|injection Hrun as <- <-; discriminate].
    destruct (Difficulty ch <? 0); [discriminate|].
    destruct (Str.HasPrefix _ _) eqn:Hp; cbn [negb] in Hrun;
      [|injection Hrun as <- <-; discriminate].
    apply ConstantTimeCompare_1 in Heq.
    exists c, b, ch, nonce.
    split; [reflexivity|]. split; [exact He|]. split; [exact Hr|].
    split; [exact Hch|]. split; [reflexivity|]. split; [exact Heq|exact Hp].
  - intros c b ch nonce elapsed Hc He Hr Hch HD Hn Hel Hpf Hsign.
    set (D := Difficulty ch) in *.
    set (challenge := challengeFor s r D (clock wd (tick st))).
    assert (Hnz : String.eqb (FormValue r "nonce") "" = false).
    { destruct (String.eqb_spec (FormValue r "nonce") "") as [E|]; [|reflexivity].
      rewrite E, Atoi_empty in Hn. discriminate. }
    assert (Hez : String.eqb (FormValue r "elapsedTime") "" = false).
    { destruct (String.eqb_spec (FormValue r "elapsedTime") "") as [E|];
        [contradiction|reflexivity]. }
    assert (HDz : (D <? 0) = false) by (apply Z.ltb_ge; exact HD).
    assert (Hvalid : valid D nonce <->
      (Str.ConstantTimeCompare response
         (SHA256sum (challenge ++ Str.itoa nonce)) =? 1) = true
      /\ Str.HasPrefix response (Str.repeat_nat "0" (Z.to_nat D)) = true).
    { unfold valid. fold challenge. rewrite ConstantTimeCompare_1. reflexivity. }
    assert (H4 : D = 4 -> Str.HasPrefix response "0000" = false -> ~ valid D nonce).
    { intros HD4 Hp [_ Hp']. rewrite HD4 in Hp'.
      change (Str.repeat_nat "0" (Z.to_nat 4)) with "0000" in Hp'. congruence. }
    generalize dependent (valid D nonce). intros V Hvalid H4.
    unfold PassChallenge.
    rewrite Hc, He, Hnz, Hez, Hpf, Hr. unfold rule_Difficulty. rewrite Hch.
    cbn [Now fst snd]. rewrite Hn.
    change (Difficulty ch) with D.
    change (challengeFor s r D (clock wd (tick (timeTaken_Observe st elapsed))))
      with challenge.
    change (FormValue r "response") with response.
    destruct (Str.ConstantTimeCompare response
                (SHA256sum (challenge ++ Str.itoa nonce)) =? 1); cbn [negb].
    + rewrite HDz.
      destruct (Str.HasPrefix response (Str.repeat_nat "0" (Z.to_nat D)));
        cbn [negb].
      * destruct (SignedString (priv s) _) as [tok|] eqn:Hs;
          [|exfalso; eapply Hsign; exact Hs].
        assert (Hv : V) by (apply Hvalid; split; reflexivity).
        eexists _, _. split; [reflexivity|].
        cbn [reply cookies status_of fst snd].
        split; [tauto|]. split; [|split; [contradiction|]].
        -- intros _. split; [reflexivity|]. split; [eexists; reflexivity|].
           reflexivity.
        -- intros HD4 _ _ Hp. destruct (H4 HD4 Hp Hv).
      * assert (Hnv : ~ V) by (intros Hv; apply Hvalid in Hv; destruct Hv; discriminate).
        eexists _, _. split; [reflexivity|].
        cbn [reply cookies status_of fst snd].
        split; [split; [discriminate|contradiction]|].
        split; [contradiction|]. split; [|reflexivity].
        intros _. repeat split; reflexivity.
    + assert (Hnv : ~ V) by (intros Hv; apply Hvalid in Hv; destruct Hv; discriminate).
      eexists _, _. split; [reflexivity|].
      cbn [reply cookies status_of fst snd].
      split; [split; [discriminate|contradiction]|].
      split; [contradiction|]. split; [|reflexivity].
      intros _. repeat split; reflexivity.
Qed.

(** ** The session token and its cookie *)

Lemma Unix_Add_seconds (t n : Z) :
  Time.Unix (Time.Add t (n * Time.Second)) = Time.Unix t + n.
Proof. unfold Time.Unix, Time.Add. now rewrite Z.div_add. Qed.

Lemma mintClaims_lookup (challenge : string) (nonce : Z) (response : string)
    (t_iat t_nbf t_exp : Z) :
  let claims := mintClaims challenge nonce response t_iat t_nbf t_exp in
  claims !! "challenge" = Some (AString challenge)
  /\ claims !! "nonce" = Some (AInt nonce)
  /\ claims !! "response" = Some (AString response)
  /\ claims !! "iat" = Some (AInt64 (Time.Unix t_iat))
  /\ claims !! "nbf" = Some (AInt64 (Time.Unix t_nbf - 60))
  /\ claims !! "exp" = Some (AInt64 (Time.Unix t_exp + 604800)).
Proof.
  cbv zeta. unfold mintClaims.
  change (-1 * Time.Minute) with ((-60) * Time.Second).
  change (24 * 7 * Time.Hour) with (604800 * Time.Second).
  rewrite !Unix_Add_seconds.
  repeat split;
    repeat (rewrite lookup_insert_ne by discriminate);
    now rewrite lookup_insert_eq.
Qed.

(** C8, as the code has it.  A pass that is answered 302 sets one cookie
    whose value is the token signed with the server's key over the claims
    [challenge], [nonce] and [response] of the request and the claims
    [iat], [nbf] and [exp], taken from three successive readings of the
    clock: [iat] is the first in seconds, [nbf] the second less 60, [exp]
    the third plus 7 days.  So [nbf = iat - 60] and [exp = iat + 7 days]
    when the readings fall in the same second.  The cookie expires 7 days
    after a fourth reading, with [SameSite=Lax], [Path=/], and the domain
    and the partitioned flag of the configuration. *)
Theorem PassChallenge_mints `{Ext : Externals}
    (s : Server) (wd : World) (st : State) (r : Request)
    (resp : Response) (st' : State) :
  PassChallenge s wd st r = Returned (resp, st') ->
  status_of (reply resp) = Some 302 ->
  let t_iat := clock wd (S (tick st)) in
  let t_nbf := clock wd (S (S (tick st))) in
  let t_exp := clock wd (S (S (S (tick st)))) in
  let t_cookie := clock wd (S (S (S (S (tick st))))) in
  exists (b : Bot) (ch : ChallengeRules) (nonce : Z) (claims : gmap string any)
         (tok : string) (iat nbf exp : Z),
    (exists c, check (policy s) r = Returned c /\ rule c = Some b)
    /\ Challenge b = Some ch
    /\ Strconv.Atoi (FormValue r "nonce") = Some nonce
    /\ SignedString (priv s) claims = Some tok
    /\ claims !! "challenge"
       = Some (AString (challengeFor s r (Difficulty ch) (clock wd (tick st))))
    /\ claims !! "nonce" = Some (AInt nonce)
    /\ claims !! "response" = Some (AString (FormValue r "response"))
    /\ claims !! "iat" = Some (AInt64 iat)
    /\ claims !! "nbf" = Some (AInt64 nbf)
    /\ claims !! "exp" = Some (AInt64 exp)
    /\ iat = Time.Unix t_iat
    /\ nbf = Time.Unix t_nbf - 60
    /\ exp = Time.Unix t_exp + 7 * 24 * 3600
    /\ (Time.Unix t_nbf = Time.Unix t_iat -> nbf = iat - 60)
    /\ (Time.Unix t_exp = Time.Unix t_iat -> exp = iat + 7 * 24 * 3600)
    /\ cookies resp
       = [SetCookie {| Name := CookieName; Value := tok;
                       Expires := t_cookie + 7 * 24 * Time.Hour;
                       CSameSite := SameSiteLaxMode;
                       Domain := CookieDomain (opts s);
                       Partitioned := CookiePartitioned (opts s);
                       Path := "/" |}].
Proof.
  intros Hrun Hst t_iat t_nbf t_exp t_cookie.
  unfold PassChallenge in Hrun.
  destruct (check (policy s) r) as [c|] eqn:Hc; [|discriminate].
  destruct (err c); [injection Hrun as <- <-; discriminate|].
  destruct (String.eqb (FormValue r "nonce") "");
    [injection Hrun as <- <-; discriminate|].
  destruct (String.eqb (FormValue r "elapsedTime") "");
    [injection Hrun as <- <-; discriminate|].
  destruct (ParseFloat (FormValue r "elapsedTime")) as [elapsed|];
    [|injection Hrun as <- <-; discriminate].
  unfold rule_Difficulty in Hrun.
  destruct (rule c) as [b|] eqn:Hr; [|discriminate].
  destruct (Challenge b) as [ch|] eqn:Hch; [|discriminate].
  cbn [Now fst snd] in Hrun.
  destruct (Strconv.Atoi (FormValue r "nonce")) as [nonce|] eqn:Hn;
    [|injection Hrun as <- <-; discriminate].
  destruct (negb (Str.ConstantTimeCompare _ _ =? 1));
    [injection Hrun as <- <-; discriminate|].
  destruct (Difficulty ch <? 0); [discriminate|].
  destruct (negb (Str.HasPrefix _ _));
    [injection Hrun as <- <-; discriminate|].
  destruct (SignedString (priv s) _) as [tok|] eqn:Hs;
    [|injection Hrun as <- <-; discriminate].
  injection Hrun as <- <-.
  cbn [tick set_tick timeTaken_Observe] in Hs.
  fold t_iat t_nbf t_exp in Hs.
  destruct (mintClaims_lookup
              (challengeFor s r (Difficulty ch) (clock wd (tick st))) nonce
              (FormValue r "response") t_iat t_nbf t_exp)
    as (L1 & L2 & L3 & L4 & L5 & L6).
  exists b, ch, nonce,
    (mintClaims (challengeFor s r (Difficulty ch) (clock wd (tick st))) nonce
       (FormValue r "response") t_iat t_nbf t_exp),
    tok, (Time.Unix t_iat), (Time.Unix t_nbf - 60),
    (Time.Unix t_exp + 7 * 24 * 3600).
  split; [exists c; split; [reflexivity|exact Hr]|].
  split; [exact Hch|]. split; [reflexivity|]. split; [exact Hs|].
  split; [exact L1|]. split; [exact L2|]. split; [exact L3|].
  split; [exact L4|]. split; [exact L5|]. split; [exact L6|].
  split; [reflexivity|]. split; [reflexivity|]. split; [reflexivity|].
  split; [intros E; rewrite E; reflexivity|].
  split; [intros E; rewrite E; reflexivity|].
  reflexivity.
Qed.

(** ** The full verification of the gating handler *)

Lemma challengeFor_stamped `{Ext : Externals} (s : Server) (r : Request)
    (cr : CheckResult) (d now : Z) :
  challengeFor s (stamped r cr) d now = challengeFor s r d now.
Proof.
  unfold challengeFor, challengeData, UserAgent, stamped.
  now rewrite !Header_Get_Add_ne by discriminate.
Qed.

Lemma MaybeReverseProxy_verifyFull `{Ext : Externals}
    (s : Server) (wd : World) (st : State) (r : Request)
    (c : Checked) (b : Bot) (claims : gmap string any) (st2 : State) :
  reaches_verification s wd st r c b claims st2 ->
  MaybeReverseProxy s wd st r
  = verifyFull s wd (set_tick st2 (S (S (tick st2)))) []
      (stamped r (result c)) (Some b) claims.
Proof.
  intros (Hc & He & Ha & Hr & Hg & (ckie & Hck & Hv & Hexp & Hp) & Hj).
  unfold MaybeReverseProxy. rewrite Hc, He. cbv zeta.
  rewrite !Header_Get_Add_ne by discriminate. rewrite Hg, Ha, Hr.
  unfold checkSession.
  change (Request_Cookie (Header_Add (Header_Add r _ _) _ _) CookieName)
    with (Request_Cookie r CookieName).
  rewrite Hck, Hv. cbn [negb Now fst snd].
  rewrite Hexp. cbn [tick set_tick]. rewrite Hp, Hj.
  rewrite <- Ha. reflexivity.
Qed.

(** The challenge page is never a forwarded request. *)
Lemma RenderIndex_not_Forward `{Ext : Externals}
    (s : Server) (wd : World) (st : State) (w : list CookieWrite)
    (r : Request) (rule : option Bot) (resp : Response) (st' : State) (r' : Request) :
  RenderIndex s wd st w r rule = Returned (resp, st') ->
  reply resp <> Forward r'.
Proof.
  unfold RenderIndex. destruct (rule_Difficulty rule); [|discriminate].
  cbn [Now fst snd].
  destruct (BaseWithChallengeAndOGTags _ _ _); intros [= <- <-]; discriminate.
Qed.

(** The challenge page is a rendered page, when the handler does not panic. *)
Lemma RenderIndex_renders `{Ext : Externals}
    (s : Server) (wd : World) (st : State) (w : list CookieWrite)
    (r : Request) (b : Bot) (ch : ChallengeRules) :
  Challenge b = Some ch ->
  exists status page st',
    RenderIndex s wd st w r (Some b)
    = Returned ({| cookies := w; reply := Render status page |}, st').
Proof.
  intros Hch. unfold RenderIndex, rule_Difficulty. rewrite Hch.
  cbn [Now fst snd].
  destruct (BaseWithChallengeAndOGTags _ _ _); eexists _, _, _; reflexivity.
Qed.

(** C10. In the full verification of a session token whose challenge claim
    matches the recomputed challenge, when the [nonce] claim is missing or
    is not a number the nonce is taken to be 0: the request is forwarded
    with the stamp PASS-FULL exactly when the [response] claim is the
    string [SHA256sum(challenge + "0")]. *)
Theorem verification_nonce_default `{Ext : Externals}
    (s : Server) (wd : World) (st : State) (r : Request)
    (c : Checked) (b : Bot) (ch : ChallengeRules)
    (claims : gmap string any) (st2 : State) :
  reaches_verification s wd st r c b claims st2 ->
  Challenge b = Some ch ->
  let challenge := challengeFor s r (Difficulty ch) (clock wd (S (S (tick st2)))) in
  claim claims "challenge" = AString challenge ->
  (forall v, claim claims "nonce" <> AFloat64 v) ->
  (exists st',
     MaybeReverseProxy s wd st r
     = Returned ({| cookies := [];
                    reply := Forward (Header_Add (stamped r (result c))
                                        "X-Anubis-Status" "PASS-FULL") |}, st'))
  <-> claim claims "response" = AString (SHA256sum (challenge ++ "0")).
Proof.
  intros Hreach Hch challenge Hchal Hnonce.
  rewrite (MaybeReverseProxy_verifyFull s wd st r c b claims st2 Hreach).
  unfold verifyFull, rule_Difficulty. rewrite Hch. cbn [Now fst snd tick set_tick].
  rewrite challengeFor_stamped. fold challenge. rewrite Hchal.
  rewrite bool_decide_eq_true_2 by reflexivity. cbn [negb].
  assert (Hn0 : match claim claims "nonce" with
                | AFloat64 v => int_of_float64 v
                | _ => 0
                end = 0).
  { destruct (claim claims "nonce") eqn:E; try reflexivity.
    exfalso. exact (Hnonce _ eq_refl). }
  rewrite Hn0. change (Str.itoa 0) with "0".
  destruct (claim claims "response") as [|response| | | | |] eqn:Hresp;
    try (split; [intros [st' H]; discriminate H | intros H; discriminate H]).
  destruct (Str.ConstantTimeCompare response (SHA256sum (challenge ++ "0")) =? 1)
    eqn:Hcmp; cbn [negb].
  - apply ConstantTimeCompare_1 in Hcmp. subst response.
    split; [reflexivity|]. intros _. eexists. reflexivity.
  - split.
    + intros [st' H]. exfalso.
      eapply RenderIndex_not_Forward in H. apply H. reflexivity.
    + intros [= E]. apply ConstantTimeCompare_1 in E. congruence.
Qed.

(** C9 fails on the code: in the full verification of a session token
    whose challenge claim matches the recomputed challenge, a [response]
    claim that is absent or is not a string makes the type assertion
    [claims["response"].(string)] panic; the handler neither forwards the
    request nor renders the challenge. *)
Theorem verification_panics `{Ext : Externals}
    (s : Server) (wd : World) (st : State) (r : Request)
    (c : Checked) (b : Bot) (ch : ChallengeRules)
    (claims : gmap string any) (st2 : State) :
  reaches_verification s wd st r c b claims st2 ->
  Challenge b = Some ch ->
  claim claims "challenge"
  = AString (challengeFor s r (Difficulty ch) (clock wd (S (S (tick st2))))) ->
  (forall response, claim claims "response" <> AString response) ->
  MaybeReverseProxy s wd st r = Panicked.
Proof.
  intros Hreach Hch Hchal Hresp.
  rewrite (MaybeReverseProxy_verifyFull s wd st r c b claims st2 Hreach).
  unfold verifyFull, rule_Difficulty. rewrite Hch. cbn [Now fst snd tick set_tick].
  rewrite challengeFor_stamped, Hchal.
  rewrite bool_decide_eq_true_2 by reflexivity. cbn [negb].
  destruct (claim claims "response") eqn:E; try reflexivity.
  exfalso. exact (Hresp _ eq_refl).
Qed.

(** What does hold for C9: when the [response] claim is a string, the full
    verification either forwards the request or renders a page. *)
Lemma verification_total_on_strings `{Ext : Externals}
    (s : Server) (wd : World) (st : State) (r : Request)
    (c : Checked) (b : Bot) (ch : ChallengeRules)
    (claims : gmap string any) (st2 : State) (response : string) :
  reaches_verification s wd st r c b claims st2 ->
  Challenge b = Some ch ->
  claim claims "response" = AString response ->
  exists resp st',
    MaybeReverseProxy s wd st r = Returned (resp, st')
    /\ ((exists r', reply resp = Forward r')
        \/ (exists status page, reply resp = Render status page)).
Proof.
  intros Hreach Hch Hresp.
  rewrite (MaybeReverseProxy_verifyFull s wd st r c b claims st2 Hreach).
  unfold verifyFull, rule_Difficulty. rewrite Hch. cbn [Now fst snd].
  destruct (negb (bool_decide _)).
  - destruct (RenderIndex_renders s wd
                (set_tick (set_tick st2 (S (S (tick st2))))
                   (S (tick (set_tick st2 (S (S (tick st2)))))))
                (ClearCookie []) (stamped r (result c)) b ch Hch)
      as (status & page & st' & H).
    rewrite H. eexists _, _. split; [reflexivity|]. right. eexists _, _. reflexivity.
  - rewrite Hresp. destruct (negb (_ =? 1)).
    + destruct (RenderIndex_renders s wd
                  (failedValidations_Inc
                     (set_tick (set_tick st2 (S (S (tick st2))))
                        (S (tick (set_tick st2 (S (S (tick st2))))))))
                  (ClearCookie []) (stamped r (result c)) b ch Hch)
        as (status & page & st' & H).
      rewrite H. eexists _, _. split; [reflexivity|]. right. eexists _, _. reflexivity.
    + eexists _, _. split; [reflexivity|]. left. eexists. reflexivity.
Qed.

(** ** The week of the challenge *)

Module TimeFacts.

Import Time.

Lemma Round_week (t : Z) : Round t Week = zero + week_of t * Week.
Proof.
  unfold Round, week_of, zero.
  change (24 * 7 * Hour) with Week.
  change Week with 604800000000000.
  change (604800000000000 / 2) with 302400000000000.
  set (a := unixToInternal * Second).
  replace (t + a) with (t + a + 0) by lia.
  change (604800000000000 <=? 0) with false. cbv iota.
  destruct (Z.ltb_spec ((t + a + 0) mod 604800000000000
                        + (t + a + 0) mod 604800000000000) 604800000000000);
    Z.to_euclidean_division_equations; lia.
Qed.

Lemma Round_same_week (t1 t2 : Z) :
  Round t1 Week = Round t2 Week <-> week_of t1 = week_of t2.
Proof.
  rewrite !Round_week. change Week with 604800000000000. lia.
Qed.

(** a rounded time is a whole number of seconds, at midnight *)
Lemma Unix_Round (t : Z) :
  Unix (Round t Week) = week_of t * 604800 - unixToInternal
  /\ Round t Week = Unix (Round t Week) * Second.
Proof.
  rewrite Round_week. unfold Unix, zero.
  change Week with (604800 * Second). change Second with 1000000000.
  set (k := week_of t). change unixToInternal with 62135596800.
  split; Z.to_euclidean_division_equations; lia.
Qed.

Lemma yoe_bounds (doe : Z) : 0 <= doe < 146097 -> 0 <= yoe_of doe <= 399.
Proof. unfold yoe_of. intros H. Z.to_euclidean_division_equations; lia. Qed.

Lemma doy_bounds (doe : Z) : 0 <= doe < 146097 -> 0 <= doy_of doe <= 365.
Proof. unfold doy_of, yoe_of. intros H. Z.to_euclidean_division_equations; lia. Qed.

Lemma mp_bounds (doy : Z) : 0 <= doy <= 365 -> 0 <= mp_of doy <= 11.
Proof. unfold mp_of. intros H. Z.to_euclidean_division_equations; lia. Qed.

Lemma month_inj (a b : Z) :
  0 <= a <= 11 -> 0 <= b <= 11 -> month_of a = month_of b -> a = b.
Proof.
  unfold month_of. intros Ha Hb.
  destruct (Z.ltb_spec a 10), (Z.ltb_spec b 10); lia.
Qed.

Lemma month_bounds (mp : Z) : 0 <= mp <= 11 -> 1 <= month_of mp <= 12.
Proof. unfold month_of. intros H. destruct (Z.ltb_spec mp 10); lia. Qed.

Lemma day_bounds (doy : Z) :
  0 <= doy <= 365 -> 1 <= doy - (153 * mp_of doy + 2) / 5 + 1 <= 31.
Proof. unfold mp_of. intros H. Z.to_euclidean_division_equations; lia. Qed.

Lemma doe_of_doy (a b : Z) : yoe_of a = yoe_of b -> doy_of a = doy_of b -> a = b.
Proof. unfold doy_of. intros ->. lia. Qed.

Lemma doe_bounds (z : Z) : 0 <= z - z / 146097 * 146097 < 146097.
Proof. Z.to_euclidean_division_equations; lia. Qed.

(** two days with the same date are the same day *)
Lemma civil_inj (z1 z2 : Z) : civil z1 = civil z2 -> z1 = z2.
Proof.
  unfold civil. cbv zeta.
  set (e1 := (z1 + 719468) / 146097). set (e2 := (z2 + 719468) / 146097).
  set (d1 := z1 + 719468 - e1 * 146097). set (d2 := z2 + 719468 - e2 * 146097).
  pose proof (doe_bounds (z1 + 719468)) as B1. fold e1 d1 in B1.
  pose proof (doe_bounds (z2 + 719468)) as B2. fold e2 d2 in B2.
  pose proof (yoe_bounds d1 B1) as Y1. pose proof (yoe_bounds d2 B2) as Y2.
  pose proof (doy_bounds d1 B1) as D1. pose proof (doy_bounds d2 B2) as D2.
  pose proof (mp_bounds _ D1) as M1. pose proof (mp_bounds _ D2) as M2.
  intros H. injection H as Hy Hm Hd.
  apply month_inj in Hm as Hmp; [|assumption|assumption].
  rewrite Hm, Hmp in *.
  assert (Hdoy : doy_of d1 = doy_of d2) by lia.
  assert (Hyoe : yoe_of d1 = yoe_of d2 /\ e1 = e2) by lia.
  destruct Hyoe as [Hyoe He].
  pose proof (doe_of_doy d1 d2 Hyoe Hdoy) as Hdoe.
  subst d1 d2. lia.
Qed.

Lemma civil_fields (z : Z) :
  1 <= snd (fst (civil z)) <= 12 /\ 1 <= snd (civil z) <= 31.
Proof.
  unfold civil. cbv zeta. cbn [fst snd].
  pose proof (doe_bounds (z + 719468)) as B.
  pose proof (doy_bounds _ B) as D. pose proof (mp_bounds _ D) as M.
  split; [now apply month_bounds | now apply day_bounds].
Qed.

End TimeFacts.

(** ** Fixed-width decimal fields *)

Module FieldFacts.

Import Fields.

Lemma below_forallb (P : Z -> bool) (n : nat) :
  forallb P (map Z.of_nat (seq 0 n)) = true ->
  forall x, 0 <= x < Z.of_nat n -> P x = true.
Proof.
  intros H x Hx. rewrite forallb_forall in H. apply H.
  apply in_map_iff. exists (Z.to_nat x). split; [lia|].
  apply in_seq. lia.
Qed.

Lemma pad_two (x : Z) : 0 <= x < 100 -> Str.pad 2 x = two x.
Proof.
  intros Hx. apply String.eqb_eq.
  apply (below_forallb (fun x => String.eqb (Str.pad 2 x) (two x)) 100);
    [vm_compute; reflexivity | exact Hx].
Qed.

Lemma pad_four (x : Z) : 0 <= x < 10000 -> Str.pad 4 x = four x.
Proof.
  intros Hx. apply String.eqb_eq.
  apply (below_forallb (fun x => String.eqb (Str.pad 4 x) (four x))
           (Z.to_nat 10000));
    [vm_compute; reflexivity | lia].
Qed.

Lemma dig_inj (a b : Z) : 0 <= a <= 9 -> 0 <= b <= 9 -> dig a = dig b -> a = b.
Proof.
  intros Ha Hb H.
  assert (Hd : forall x, 0 <= x <= 9 -> Str.byte_of (dig x) = 48 + x).
  { intros x Hx. apply Z.eqb_eq.
    apply (below_forallb (fun x => Str.byte_of (dig x) =? 48 + x) 10);
      [reflexivity | lia]. }
  apply (f_equal Str.byte_of) in H. rewrite !Hd in H by assumption. lia.
Qed.

Lemma two_inj (x y : Z) (s t : string) :
  0 <= x < 100 -> 0 <= y < 100 -> two x ++ s = two y ++ t -> x = y /\ s = t.
Proof.
  unfold two. cbn [String.append]. intros Hx Hy [= H1 H0 Hs].
  apply dig_inj in H1; [|Z.to_euclidean_division_equations; lia..].
  apply dig_inj in H0; [|Z.to_euclidean_division_equations; lia..].
  split; [Z.to_euclidean_division_equations; lia | exact Hs].
Qed.

Lemma four_inj (x y : Z) (s t : string) :
  0 <= x < 10000 -> 0 <= y < 10000 -> four x ++ s = four y ++ t -> x = y /\ s = t.
Proof.
  unfold four. cbn [String.append]. intros Hx Hy [= H3 H2 H1 H0 Hs].
  apply dig_inj in H3; [|Z.to_euclidean_division_equations; lia..].
  apply dig_inj in H2; [|Z.to_euclidean_division_equations; lia..].
  apply dig_inj in H1; [|Z.to_euclidean_division_equations; lia..].
  apply dig_inj in H0; [|Z.to_euclidean_division_equations; lia..].
  split; [Z.to_euclidean_division_equations; lia | exact Hs].
Qed.

End FieldFacts.

(** ** The challenge and the week *)

Lemma append_cons (c : ascii) (a b : string) : String c a ++ b = String c (a ++ b).
Proof. reflexivity. Qed.

Lemma append_inv_head (a x y : string) : a ++ x = a ++ y -> x = y.
Proof.
  induction a as [|c a IH]; [trivial|].
  rewrite !append_cons. intros [= H]. exact (IH H).
Qed.

Lemma append_assoc (a b c : string) : (a ++ b) ++ c = a ++ (b ++ c).
Proof.
  induction a as [|x a IH]; [reflexivity|].
  rewrite !append_cons. f_equal. exact IH.
Qed.

Lemma FormatRFC3339_fields (t : Z) (rest : string) :
  Time.four_digit_year t = true ->
  let sec := Time.Unix t in
  let sod := sec mod 86400 in
  let date := Time.civil (sec / 86400) in
  Time.FormatRFC3339 t ++ rest
  = Fields.four (fst (fst date)) ++ "-" ++ Fields.two (snd (fst date)) ++ "-"
    ++ Fields.two (snd date) ++ "T" ++ Fields.two (sod / 3600) ++ ":"
    ++ Fields.two (sod mod 3600 / 60) ++ ":" ++ Fields.two (sod mod 60)
    ++ "Z" ++ rest.
Proof.
  unfold Time.four_digit_year, Time.FormatRFC3339. cbv zeta.
  pose proof (TimeFacts.civil_fields (Time.Unix t / 86400)) as [Hm Hd].
  destruct (Time.civil (Time.Unix t / 86400)) as [[y m] d]. cbn [fst snd] in *.
  intros Hy. apply andb_true_iff in Hy as [Hy0 Hy1].
  apply Z.leb_le in Hy0, Hy1.
  rewrite FieldFacts.pad_four by lia.
  rewrite !FieldFacts.pad_two by (Z.to_euclidean_division_equations; lia).
  now rewrite !append_assoc.
Qed.

(** On times whose year has four digits, the RFC 3339 text determines the
    second. *)
Lemma FormatRFC3339_inj (t1 t2 : Z) (rest1 rest2 : string) :
  Time.four_digit_year t1 = true ->
  Time.four_digit_year t2 = true ->
  Time.FormatRFC3339 t1 ++ rest1 = Time.FormatRFC3339 t2 ++ rest2 ->
  Time.Unix t1 = Time.Unix t2.
Proof.
  intros H1 H2.
  rewrite (FormatRFC3339_fields t1 rest1 H1), (FormatRFC3339_fields t2 rest2 H2).
  cbv zeta.
  unfold Time.four_digit_year in H1, H2.
  pose proof (TimeFacts.civil_fields (Time.Unix t1 / 86400)) as [Hm1 Hd1].
  pose proof (TimeFacts.civil_fields (Time.Unix t2 / 86400)) as [Hm2 Hd2].
  pose proof (TimeFacts.civil_inj (Time.Unix t1 / 86400) (Time.Unix t2 / 86400))
    as Hinj.
  destruct (Time.civil (Time.Unix t1 / 86400)) as [[y1 m1] d1].
  destruct (Time.civil (Time.Unix t2 / 86400)) as [[y2 m2] d2].
  cbn [fst snd] in *.
  apply andb_true_iff in H1 as [Ha1 Hb1]. apply andb_true_iff in H2 as [Ha2 Hb2].
  apply Z.leb_le in Ha1, Hb1, Ha2, Hb2.
  set (s1 := Time.Unix t1) in *. set (s2 := Time.Unix t2) in *.
  intros H.
  apply FieldFacts.four_inj in H as [Ey H]; [|lia..].
  apply (append_inv_head "-") in H.
  apply FieldFacts.two_inj in H as [Em H]; [|lia..].
  apply (append_inv_head "-") in H.
  apply FieldFacts.two_inj in H as [Ed H]; [|lia..].
  apply (append_inv_head "T") in H.
  apply FieldFacts.two_inj in H as [Eh H];
    [|Z.to_euclidean_division_equations; lia..].
  apply (append_inv_head ":") in H.
  apply FieldFacts.two_inj in H as [Emin H];
    [|Z.to_euclidean_division_equations; lia..].
  apply (append_inv_head ":") in H.
  apply FieldFacts.two_inj in H as [Es _];
    [|Z.to_euclidean_division_equations; lia..].
  assert (Hdays : s1 / 86400 = s2 / 86400) by (apply Hinj; congruence).
  assert (Hsod : s1 mod 86400 = s2 mod 86400)
    by (Z.to_euclidean_division_equations; lia).
  Z.to_euclidean_division_equations; lia.
Qed.

Lemma week_window (t k : Z) :
  Time.week_of t = k
  <-> Time.zero + k * Time.Week - Time.Week / 2 <= t
      < Time.zero + k * Time.Week + Time.Week / 2.
Proof.
  unfold Time.week_of, Time.zero.
  change Time.Week with 604800000000000.
  change (604800000000000 / 2) with 302400000000000.
  set (a := Time.unixToInternal * Time.Second).
  split; intros H; Z.to_euclidean_division_equations; lia.
Qed.

Lemma challengeData_week `{Ext : Externals} (s : Server) (r : Request) (d t1 t2 : Z) :
  Time.four_digit_year (Time.Round t1 Time.Week) = true ->
  Time.four_digit_year (Time.Round t2 Time.Week) = true ->
  challengeData s r d t1 = challengeData s r d t2 ->
  Time.week_of t1 = Time.week_of t2.
Proof.
  intros H1 H2 H. unfold challengeData in H.
  change (24 * 7 * Time.Hour) with Time.Week in H.
  do 7 apply append_inv_head in H.
  apply FormatRFC3339_inj in H; [|assumption..].
  destruct (TimeFacts.Unix_Round t1) as [E1 _], (TimeFacts.Unix_Round t2) as [E2 _].
  lia.
Qed.

(** C3, as the code has it.  The [WeekTime] of the challenge is the clock
    reading rounded to the nearest multiple of 7 days counted from the
    zero time, halfway values rounding up: it names the Monday 00:00 UTC
    nearest to the reading, and the weeks run from Thursday 12:00 UTC to
    the next.  Two derivations with the same request headers, key and
    difficulty give equal challenge strings when their readings lie in the
    same such week; when they lie in different weeks (even one nanosecond
    apart) the hashed texts differ, and so do the challenge strings unless
    SHA-256 collides on the two texts. *)
Theorem challenge_week `{Ext : Externals} (s : Server) (r : Request) (d t1 t2 : Z) :
  let W := 24 * 7 * Time.Hour in
  Time.Round t1 W = Time.zero + Time.week_of t1 * W
  /\ (forall k, Time.week_of t1 = k
                <-> Time.zero + k * W - W / 2 <= t1 < Time.zero + k * W + W / 2)
  /\ (Time.week_of t1 = Time.week_of t2 ->
      challengeFor s r d t1 = challengeFor s r d t2)
  /\ (Time.four_digit_year (Time.Round t1 W) = true ->
      Time.four_digit_year (Time.Round t2 W) = true ->
      Time.week_of t1 <> Time.week_of t2 ->
      challengeData s r d t1 <> challengeData s r d t2
      /\ ((SHA256sum (challengeData s r d t1) = SHA256sum (challengeData s r d t2) ->
           challengeData s r d t1 = challengeData s r d t2) ->
          challengeFor s r d t1 <> challengeFor s r d t2)).
Proof.
  cbv zeta. change (24 * 7 * Time.Hour) with Time.Week.
  split; [apply TimeFacts.Round_week|].
  split; [intros k; apply week_window|].
  split.
  - intros Hw. apply TimeFacts.Round_same_week in Hw.
    unfold challengeFor, challengeData.
    change (24 * 7 * Time.Hour) with Time.Week. now rewrite Hw.
  - intros H1 H2 Hw.
    assert (Hd : challengeData s r d t1 <> challengeData s r d t2).
    { intros E. apply Hw. exact (challengeData_week s r d t1 t2 H1 H2 E). }
    split; [exact Hd|].
    intros Hinj E. apply Hd, Hinj, E.
Qed.

(** C3, as the claim has it, fails three ways on the same server and
    request: on a Saturday the [WeekTime] is the Monday that follows, later
    than the reading and so not rounded down; one second before and at a
    Monday 00:00 UTC, on the two sides of a 7-day boundary, the challenge
    strings are equal; one second before and at a Thursday 12:00 UTC,
    inside one and the same 7-day span from Monday to Monday, they differ. *)
Lemma challenge_week_not_rounded_down :
  let s := Demo.server [] false 4 in
  let r := Demo.request "203.0.113.9" ∅ [] in
  let W := 24 * 7 * Time.Hour in
  let monday := 1762128000 * Time.Second in
  let thursday := 1761825600 * Time.Second in
  (Demo.saturday < Time.Round Demo.saturday W
   /\ Time.FormatRFC3339 Demo.saturday = "2025-11-01T12:26:40Z"
   /\ Time.FormatRFC3339 (Time.Round Demo.saturday W) = "2025-11-03T00:00:00Z")
  /\ (Time.Truncate (monday - Time.Second) W <> Time.Truncate monday W
      /\ challengeFor s r 4 (monday - Time.Second) = challengeFor s r 4 monday)
  /\ (Time.Truncate (thursday - Time.Second) W = Time.Truncate thursday W
      /\ challengeFor s r 4 (thursday - Time.Second) <> challengeFor s r 4 thursday).
Proof.
  cbv zeta. split; [|split].
  - split; [reflexivity|]. split; vm_compute; reflexivity.
  - split; [vm_compute; discriminate | vm_compute; reflexivity].
  - split; [vm_compute; reflexivity | vm_compute; discriminate].
Qed.

(** ** The denylist cache after a failed lookup *)

Lemma check_host (p : ParsedConfig) (r : Request) (c : Checked) :
  check p r = Returned c -> err c = None -> Header_Get r "X-Real-Ip" <> "".
Proof.
  unfold check. intros H He E. rewrite E in H. cbn in H.
  injection H as <-. discriminate.
Qed.

(** On a miss of the cache the gate stores what [dnsbl.Lookup] returned,
    whether or not it returned an error, and lets the request through. *)
Lemma dnsblGate_miss `{Ext : Externals} (s : Server) (wd : World) (st : State)
    (ip : string) (resp : Z) (e : option string) :
  DNSBL (policy s) = true ->
  ip <> "" ->
  fst (Decaymap.Get (DNSBLCache st) ip (clock wd (tick st))) = None ->
  dnsbl_Lookup wd ip = (resp, e) ->
  exists st2,
    dnsblGate s wd st ip = (None, st2)
    /\ DNSBLCache st2 !! ip = Some (resp, clock wd (S (tick st)) + 24 * Time.Hour).
Proof.
  intros Hd Hip Hmiss Hl. unfold dnsblGate. rewrite Hd.
  destruct (String.eqb_spec ip "") as [|_]; [contradiction|].
  cbn [andb negb Now fst snd tick set_tick DNSBLCache].
  destruct (Decaymap.Get (DNSBLCache st) ip (clock wd (tick st))) as [got cache].
  cbn [fst] in Hmiss. subst got. rewrite Hl.
  cbn [default negb tick set_tick set_DNSBLCache DNSBLCache droneBLHits_Inc].
  change (0 =? AllGood) with true. cbn [negb].
  eexists. split; [reflexivity|].
  cbn [DNSBLCache]. unfold Decaymap.Set_. apply lookup_insert_eq.
Qed.

Lemma RenderIndex_DNSBLCache `{Ext : Externals}
    (s : Server) (wd : World) (st : State) (w : list CookieWrite)
    (r : Request) (rule : option Bot) (resp : Response) (st' : State) :
  RenderIndex s wd st w r rule = Returned (resp, st') ->
  DNSBLCache st' = DNSBLCache st.
Proof.
  unfold RenderIndex. destruct (rule_Difficulty rule); [|discriminate].
  cbn [Now fst snd].
  destruct (BaseWithChallengeAndOGTags _ _ _); intros [= _ <-]; reflexivity.
Qed.

Lemma verifyFull_DNSBLCache `{Ext : Externals}
    (s : Server) (wd : World) (st : State) (w : list CookieWrite)
    (r : Request) (rule : option Bot) (claims : gmap string any)
    (resp : Response) (st' : State) :
  verifyFull s wd st w r rule claims = Returned (resp, st') ->
  DNSBLCache st' = DNSBLCache st.
Proof.
  unfold verifyFull. destruct (rule_Difficulty rule); [|discriminate].
  cbn [Now fst snd].
  destruct (negb (bool_decide _)).
  - intros H. now apply RenderIndex_DNSBLCache in H.
  - destruct (claim claims "response"); try discriminate.
    destruct (negb (_ =? 1)).
    + intros H. now apply RenderIndex_DNSBLCache in H.
    + intros [= _ <-]. reflexivity.
Qed.

(** After the denylist gate the handler leaves the cache as it is. *)
Lemma MaybeReverseProxy_DNSBLCache `{Ext : Externals}
    (s : Server) (wd : World) (st : State) (r : Request) (c : Checked)
    (resp : Response) (st' : State) :
  check (policy s) r = Returned c ->
  err c = None ->
  MaybeReverseProxy s wd st r = Returned (resp, st') ->
  DNSBLCache st'
  = DNSBLCache
      (snd (dnsblGate s wd
              (Applications_Add st (CRName (result c)) (Rule_tag (CRRule (result c))))
              (Header_Get r "X-Real-Ip"))).
Proof.
  intros Hc He. unfold MaybeReverseProxy. rewrite Hc, He. cbv zeta.
  rewrite !Header_Get_Add_ne by discriminate.
  destruct (dnsblGate s wd _ (Header_Get r "X-Real-Ip")) as [[hit|] st2];
    cbn [snd]; [intros [= _ <-]; reflexivity|].
  destruct (CRRule (result c)).
  - intros [= _ <-]; reflexivity.
  - intros [= _ <-]; reflexivity.
  - destruct (rule c) as [b|]; [|intros [= _ <-]; reflexivity].
    destruct (Bot_Hash b); [|discriminate]. intros [= _ <-]; reflexivity.
  - unfold checkSession.
    destruct (Request_Cookie _ _) as [ckie|];
      [|intros H; now apply RenderIndex_DNSBLCache in H].
    destruct (negb (Cookie_Valid ckie));
      [intros H; now apply RenderIndex_DNSBLCache in H|].
    cbn [Now fst snd].
    destruct (Time.After _ _ && _);
      [intros H; now apply RenderIndex_DNSBLCache in H|].
    destruct (ParseWithClaims _ _ _) as [claims|];
      [|intros H; now apply RenderIndex_DNSBLCache in H].
    destruct (randomJitter wd); [intros [= _ <-]; reflexivity|].
    intros H. now apply verifyFull_DNSBLCache in H.
  - intros [= _ <-]; reflexivity.
Qed.

(** C2 fails on the code: with the denylist on, when the client address is
    not in the cache and [dnsbl.Lookup] fails with an error, the gating
    handler lets the request through the gate, as the claim says, but it
    does store the response returned along with the error in the cache,
    for 24 hours from the clock reading of the store. *)
Theorem failed_lookup_is_cached `{Ext : Externals}
    (s : Server) (wd : World) (st : State) (r : Request) (c : Checked)
    (resp : Z) (e : string) :
  check (policy s) r = Returned c ->
  err c = None ->
  DNSBL (policy s) = true ->
  let ip := Header_Get r "X-Real-Ip" in
  fst (Decaymap.Get (DNSBLCache st) ip (clock wd (tick st))) = None ->
  dnsbl_Lookup wd ip = (resp, Some e) ->
  listed s wd st ip = None
  /\ forall (out : Response) (st' : State),
       MaybeReverseProxy s wd st r = Returned (out, st') ->
       DNSBLCache st' !! ip = Some (resp, clock wd (S (tick st)) + 24 * Time.Hour)
       /\ forall now, now < clock wd (S (tick st)) + 24 * Time.Hour ->
            fst (Decaymap.Get (DNSBLCache st') ip now) = Some resp.
Proof.
  intros Hc He Hd ip Hmiss Hl.
  pose proof (check_host _ _ _ Hc He) as Hip. fold ip in Hip.
  destruct (dnsblGate_miss s wd
              (Applications_Add st (CRName (result c)) (Rule_tag (CRRule (result c))))
              ip resp (Some e) Hd Hip Hmiss Hl) as (st2 & Hg & Hcache).
  split.
  - pose proof (dnsblGate_listed s wd
      (Applications_Add st (CRName (result c)) (Rule_tag (CRRule (result c)))) ip)
      as H1.
    rewrite Hg in H1. cbn [fst] in H1. exact (eq_sym H1).
  - intros out st' Hrun.
    pose proof (MaybeReverseProxy_DNSBLCache s wd st r c out st' Hc He Hrun) as E.
    fold ip in E. rewrite Hg in E. cbn [snd] in E.
    rewrite E. split; [exact Hcache|].
    intros now Hnow. unfold Decaymap.Get. cbn [tick Applications_Add] in Hcache.
    rewrite Hcache.
    destruct (Z.leb_spec (clock wd (S (tick st)) + 24 * Time.Hour) now); [lia|].
    reflexivity.
Qed.

(** ** The theorems on concrete requests *)

(** C4 on a policy of three rules, the second of which is the first to
    match: it is returned, and it still is with a fourth rule appended. *)
Lemma check_first_match_witness :
  let p := {| Bots := [Demo.never RuleAllow "a"; Demo.always RuleDeny "b";
                       Demo.always RuleAllow "c"];
              DNSBL := false; DefaultDifficulty := 4 |} in
  let r := Demo.request "127.0.0.1" ∅ [] in
  let c := {| result := {| CRName := "bot/b"; CRRule := RuleDeny |};
              rule := Some (Demo.always RuleDeny "b"); err := None;
              evaluated := ["a"; "b"] |} in
  check p r = Returned c
  /\ check (with_Bots p (Bots p ++ [Demo.always RuleAllow "d"])) r = Returned c.
Proof.
  cbv zeta.
  destruct (check_first_match
              {| Bots := [Demo.never RuleAllow "a"; Demo.always RuleDeny "b";
                          Demo.always RuleAllow "c"];
                 DNSBL := false; DefaultDifficulty := 4 |}
              (Demo.request "127.0.0.1" ∅ [])) as (_ & Hfirst & Hstable).
  assert (Hc : check
                 {| Bots := [Demo.never RuleAllow "a"; Demo.always RuleDeny "b";
                             Demo.always RuleAllow "c"];
                    DNSBL := false; DefaultDifficulty := 4 |}
                 (Demo.request "127.0.0.1" ∅ [])
               = Returned {| result := {| CRName := "bot/b"; CRRule := RuleDeny |};
                             rule := Some (Demo.always RuleDeny "b"); err := None;
                             evaluated := ["a"; "b"] |}).
  { apply (Hfirst [0; 0; 0; 0; 0; 0; 0; 0; 0; 0; 255; 255; 127; 0; 0; 1]
             [Demo.never RuleAllow "a"] [Demo.always RuleAllow "c"]
             (Demo.always RuleDeny "b")).
    - reflexivity.
    - reflexivity.
    - constructor; [|constructor]. eexists. split; reflexivity.
    - eexists. split; reflexivity. }
  split; [exact Hc|].
  apply (Hstable _ (Demo.always RuleDeny "b") _ Hc).
  split; [reflexivity|]. split; [reflexivity|]. eexists. reflexivity.
Defined.

(** C5 on a policy whose only rule does not match, with default difficulty 7. *)
Lemma check_default_witness :
  let p := {| Bots := [Demo.never RuleDeny "a"]; DNSBL := false;
              DefaultDifficulty := 7 |} in
  let r := Demo.request "127.0.0.1" ∅ [] in
  exists (bot : Bot) (ch : ChallengeRules) (names : list string),
    check p r
    = Returned {| result := {| CRName := "default/allow"; CRRule := RuleAllow |};
                  rule := Some bot; err := None; evaluated := names |}
    /\ Challenge bot = Some ch /\ Difficulty ch = 7 /\ ReportAs ch = 7.
Proof.
  cbv zeta.
  destruct (check_default
              {| Bots := [Demo.never RuleDeny "a"]; DNSBL := false;
                 DefaultDifficulty := 7 |}
              (Demo.request "127.0.0.1" ∅ [])
              [0; 0; 0; 0; 0; 0; 0; 0; 0; 0; 255; 255; 127; 0; 0; 1])
    as (bot & ch & names & Hc & Hch & _ & _ & _ & HD).
  - reflexivity.
  - constructor; [|constructor]. eexists. split; reflexivity.
  - exists bot, ch, names. split; [exact Hc|]. split; [exact Hch|].
    apply HD; [lia | reflexivity].
Defined.

(** C6 on a request whose header holds a host name. *)
Lemma check_misconfiguration_witness :
  let s := Demo.server [Demo.always RuleAllow "a"] false 4 in
  let r := Demo.request "localhost" ∅ [] in
  (exists c, check (policy s) r = Returned c /\ evaluated c = [] /\ rule c = None)
  /\ MaybeReverseProxy s (Demo.world Demo.saturday 1 false (0, None)) (Demo.state ∅) r
     = Returned ({| cookies := [];
                    reply := Render 500
                      (ErrorPage (misconfigured "maybeReverseProxy")
                                 "admin@example.org") |}, Demo.state ∅).
Proof.
  cbv zeta.
  apply (check_misconfiguration (Demo.server [Demo.always RuleAllow "a"] false 4)
           (Demo.world Demo.saturday 1 false (0, None)) (Demo.state ∅)
           (Demo.request "localhost" ∅ [])).
  right. reflexivity.
Defined.

(** C7 on a deny rule, with the denylist on and nothing listed. *)
Lemma deny_page_witness :
  let s := Demo.server [Demo.always RuleDeny "bad"] true 4 in
  let wd := Demo.world Demo.saturday 1 false (0, None) in
  let r := Demo.request "203.0.113.9" ∅ [] in
  exists st',
    MaybeReverseProxy s wd (Demo.state ∅) r
    = Returned ({| cookies := [Cleared];
                   reply := Render 200
                     (ErrorPage ("Access Denied: error code "
                                 ++ SHA256sum "bad::always")
                                "admin@example.org") |}, st').
Proof.
  cbv zeta.
  destruct (deny_page (Demo.server [Demo.always RuleDeny "bad"] true 4)
              (Demo.world Demo.saturday 1 false (0, None)) (Demo.state ∅)
              (Demo.request "203.0.113.9" ∅ [])
              {| result := cr "bot/bad" RuleDeny;
                 rule := Some (Demo.always RuleDeny "bad"); err := None;
                 evaluated := ["bad"] |})
    as (b & k & st' & Hr & Hk & _ & _ & Hrun).
  - reflexivity.
  - reflexivity.
  - reflexivity.
  - reflexivity.
  - exists st'. cbn [rule] in Hr. injection Hr as <-.
    cbn [Rules Demo.always] in Hk. injection Hk as <-. exact Hrun.
Defined.

(** C1 on the request of the regression test of CVE-2025-24369: at
    difficulty 4, nonce 0 and the right hash, which does not begin with
    four zeros, are answered 403. *)
Lemma PassChallenge_validates_witness :
  let s := Demo.server [] false 4 in
  let wd := Demo.world Demo.saturday 1 false (0, None) in
  let challenge := challengeFor s (Demo.request "127.0.0.1" ∅ []) 4 Demo.saturday in
  let response := SHA256sum (challenge ++ "0") in
  let r := Demo.request "127.0.0.1" (Demo.pass_form response) [] in
  Str.HasPrefix response "0000" = false
  /\ exists (resp : Response) (st' : State),
       PassChallenge s wd (Demo.state ∅) r = Returned (resp, st')
       /\ status_of (reply resp) = Some 403
       /\ cookies resp = [Cleared]
       /\ failedValidations st' = 1.
Proof.
  cbv zeta.
  assert (Hp : Str.HasPrefix
                 (SHA256sum
                    (challengeFor (Demo.server [] false 4)
                       (Demo.request "127.0.0.1" ∅ []) 4 Demo.saturday ++ "0"))
                 "0000" = false) by (vm_compute; reflexivity).
  split; [exact Hp|].
  destruct (PassChallenge_validates (Demo.server [] false 4)
              (Demo.world Demo.saturday 1 false (0, None)) (Demo.state ∅)
              (Demo.request "127.0.0.1"
                 (Demo.pass_form
                    (SHA256sum
                       (challengeFor (Demo.server [] false 4)
                          (Demo.request "127.0.0.1" ∅ []) 4 Demo.saturday ++ "0")))
                 []))
    as [_ Hdecide].
  destruct (Hdecide
              {| result := cr "default/allow" RuleAllow;
                 rule := Some (default_bot (policy (Demo.server [] false 4)));
                 err := None; evaluated := [] |}
              (default_bot (policy (Demo.server [] false 4)))
              {| Difficulty := 4; ReportAs := 4; Algo := AlgorithmFast |}
              0 0x407A400000000000)
    as (resp & st' & Hrun & _ & _ & Hbad & _).
  - reflexivity.
  - reflexivity.
  - reflexivity.
  - reflexivity.
  - cbn [Difficulty]. lia.
  - reflexivity.
  - discriminate.
  - reflexivity.
  - intros claims. discriminate.
  - exists resp, st'. split; [exact Hrun|].
    destruct Hbad as (Hs & Hck & Hf).
    + intros [_ Hp']. cbn [Difficulty] in Hp'.
      change (Str.repeat_nat "0" (Z.to_nat 4)) with "0000" in Hp'.
      change (FormValue _ "response")
        with (SHA256sum
                (challengeFor (Demo.server [] false 4)
                   (Demo.request "127.0.0.1" ∅ []) 4 Demo.saturday ++ "0")) in Hp'.
      rewrite Hp in Hp'. discriminate Hp'.
    + split; [exact Hs|]. split; [exact Hck|]. rewrite Hf. reflexivity.
Defined.

(** C8 on the request of the cookie test: difficulty 0, the domain
    [local.cetacean.club] and the partitioned flag, with a clock that
    stands at one second for the whole request. *)
Lemma PassChallenge_mints_witness :
  let s := Demo.server [] false 0 in
  let wd := Demo.world Demo.saturday 0 false (0, None) in
  let challenge := challengeFor s (Demo.request "127.0.0.1" ∅ []) 0 Demo.saturday in
  let r := Demo.request "127.0.0.1" (Demo.pass_form (SHA256sum (challenge ++ "0"))) [] in
  exists (resp : Response) (st' : State) (claims : gmap string any) (tok : string),
    PassChallenge s wd (Demo.state ∅) r = Returned (resp, st')
    /\ reply resp = Redirect 302 "/"
    /\ SignedString (priv s) claims = Some tok
    /\ claims !! "iat" = Some (AInt64 1762000000)
    /\ claims !! "nbf" = Some (AInt64 (1762000000 - 60))
    /\ claims !! "exp" = Some (AInt64 (1762000000 + 7 * 24 * 3600))
    /\ cookies resp
       = [SetCookie {| Name := "within.website-x-cmd-anubis-auth"; Value := tok;
                       Expires := Demo.saturday + 7 * 24 * Time.Hour;
                       CSameSite := SameSiteLaxMode;
                       Domain := "local.cetacean.club";
                       Partitioned := true; Path := "/" |}].
Proof.
  cbv zeta.
  assert (Hex : exists (resp : Response) (st' : State),
    PassChallenge (Demo.server [] false 0)
      (Demo.world Demo.saturday 0 false (0, None)) (Demo.state ∅)
      (Demo.request "127.0.0.1"
         (Demo.pass_form
            (SHA256sum
               (challengeFor (Demo.server [] false 0)
                  (Demo.request "127.0.0.1" ∅ []) 0 Demo.saturday ++ "0")))
         [])
    = Returned (resp, st')
    /\ reply resp = Redirect 302 "/").
  { eexists _, _. split; [vm_compute; reflexivity|]. reflexivity. }
  destruct Hex as (resp & st' & Hrun & Hrep).
  assert (Hst : status_of (reply resp) = Some 302) by (rewrite Hrep; reflexivity).
  destruct (PassChallenge_mints _ _ _ _ resp st' Hrun Hst)
    as (b & ch & nonce & claims & tok & iat & nbf & exp & _ & _ & _ & Hs & _ & _
        & _ & Hi & Hn & He & Ei & En & Ee & _ & _ & Hck).
  exists resp, st', claims, tok.
  split; [exact Hrun|]. split; [exact Hrep|]. split; [exact Hs|].
  rewrite Hi, Hn, He, Ei, En, Ee.
  split; [reflexivity|]. split; [reflexivity|]. split; [reflexivity|].
  exact Hck.
Defined.

(** C8, as the claim has it, fails when the clock passes a second while
    the token is minted: with readings 600 ms apart the token of a pass
    answered 302 carries [nbf = iat - 59] and [exp = iat + 7 days + 1]
    (the test double writes [iat], [nbf] and [exp] as the last three
    fields of the token). *)
Lemma PassChallenge_mints_across_seconds :
  let s := Demo.server [] false 0 in
  let wd := Demo.world Demo.saturday (600 * 1000000) false (0, None) in
  let challenge := challengeFor s (Demo.request "127.0.0.1" ∅ []) 0 Demo.saturday in
  let response := SHA256sum (challenge ++ "0") in
  let r := Demo.request "127.0.0.1" (Demo.pass_form response) [] in
  let claims :=
    mintClaims challenge 0 response (clock wd 1) (clock wd 2) (clock wd 3) in
  exists (st' : State) (ckie : Cookie),
    PassChallenge s wd (Demo.state ∅) r
    = Returned ({| cookies := [SetCookie ckie]; reply := Redirect 302 "/" |}, st')
    /\ SignedString (priv s) claims = Some (Value ckie)
    /\ Value ckie
       = challenge ++ "." ++ response ++ ".1762000000.1761999941.1762604801"
    /\ claims !! "iat" = Some (AInt64 1762000000)
    /\ claims !! "nbf" = Some (AInt64 1761999941)
    /\ claims !! "exp" = Some (AInt64 1762604801)
    /\ 1761999941 <> 1762000000 - 60
    /\ 1762604801 <> 1762000000 + 7 * 24 * 3600.
Proof.
  cbv zeta. eexists _, _.
  split; [vm_compute; reflexivity|].
  split; [vm_compute; reflexivity|].
  split; [vm_compute; reflexivity|].
  split; [vm_compute; reflexivity|].
  split; [vm_compute; reflexivity|].
  split; [vm_compute; reflexivity|].
  split; discriminate.
Qed.

(** A request that reaches the full verification on the test server: the
    session cookie carries a token whose challenge is the one of the
    week. *)
Lemma Demo_reaches_verification (token : string) (claims : gmap string any) :
  Demo.parse Demo.key (Demo.saturday + 1) token = Some claims ->
  let s := Demo.server [Demo.challenging "generic-browser"] false 4 in
  let wd := Demo.world Demo.saturday 1 false (0, None) in
  let r := Demo.request "203.0.113.9" ∅ [Demo.session token] in
  reaches_verification s wd (Demo.state ∅) r
    {| result := cr "bot/generic-browser" RuleChallenge;
       rule := Some (Demo.challenging "generic-browser"); err := None;
       evaluated := ["generic-browser"] |}
    (Demo.challenging "generic-browser") claims
    (Applications_Add (Demo.state ∅) "bot/generic-browser" "CHALLENGE").
Proof.
  intros Hp. cbv zeta. unfold reaches_verification.
  split; [reflexivity|]. split; [reflexivity|]. split; [reflexivity|].
  split; [reflexivity|]. split; [reflexivity|].
  split; [|reflexivity].
  exists (Demo.session token).
  split; [reflexivity|]. split; [reflexivity|]. split; [reflexivity|].
  exact Hp.
Qed.

(** C9 on a token that carries the challenge of the week and no
    [response] claim: the handler panics. *)
Lemma verification_panics_witness :
  let s := Demo.server [Demo.challenging "generic-browser"] false 4 in
  let wd := Demo.world Demo.saturday 1 false (0, None) in
  let challenge := challengeFor s (Demo.request "203.0.113.9" ∅ []) 4 Demo.saturday in
  let r := Demo.request "203.0.113.9" ∅ [Demo.session (challenge ++ ".")] in
  ParseWithClaims (pub s) (clock wd 1) (challenge ++ ".")
  = Some {[ "challenge" := AString challenge ]}
  /\ MaybeReverseProxy s wd (Demo.state ∅) r = Panicked.
Proof.
  cbv zeta.
  assert (Hp : Demo.parse Demo.key (Demo.saturday + 1)
                 (challengeFor
                    (Demo.server [Demo.challenging "generic-browser"] false 4)
                    (Demo.request "203.0.113.9" ∅ []) 4 Demo.saturday ++ ".")
               = Some {[ "challenge" :=
                           AString (challengeFor
                             (Demo.server [Demo.challenging "generic-browser"] false 4)
                             (Demo.request "203.0.113.9" ∅ []) 4 Demo.saturday) ]})
    by (vm_compute; reflexivity).
  split; [exact Hp|].
  apply (verification_panics _ _ _ _ _ _
           {| Difficulty := 4; ReportAs := 4; Algo := AlgorithmFast |} _ _
           (Demo_reaches_verification _ _ Hp)).
  - reflexivity.
  - vm_compute. reflexivity.
  - intros response H. vm_compute in H. discriminate H.
Defined.

(** C10 on a token that carries the challenge of the week, no [nonce] and
    the hash of the challenge followed by [0]: the request is forwarded. *)
Lemma verification_nonce_default_witness :
  let s := Demo.server [Demo.challenging "generic-browser"] false 4 in
  let wd := Demo.world Demo.saturday 1 false (0, None) in
  let challenge := challengeFor s (Demo.request "203.0.113.9" ∅ []) 4 Demo.saturday in
  let token := challenge ++ "." ++ SHA256sum (challenge ++ "0") in
  let r := Demo.request "203.0.113.9" ∅ [Demo.session token] in
  exists st',
    MaybeReverseProxy s wd (Demo.state ∅) r
    = Returned ({| cookies := [];
                   reply := Forward
                     (Header_Add
                        (stamped r (cr "bot/generic-browser" RuleChallenge))
                        "X-Anubis-Status" "PASS-FULL") |}, st').
Proof.
  cbv zeta.
  assert (Hp : Demo.parse Demo.key (Demo.saturday + 1)
                 (challengeFor
                    (Demo.server [Demo.challenging "generic-browser"] false 4)
                    (Demo.request "203.0.113.9" ∅ []) 4 Demo.saturday
                  ++ "." ++
                  SHA256sum
                    (challengeFor
                       (Demo.server [Demo.challenging "generic-browser"] false 4)
                       (Demo.request "203.0.113.9" ∅ []) 4 Demo.saturday ++ "0"))
               = Some
                   (<["challenge" :=
                        AString (challengeFor
                          (Demo.server [Demo.challenging "generic-browser"] false 4)
                          (Demo.request "203.0.113.9" ∅ []) 4 Demo.saturday)]>
                    (<["response" :=
                         AString (SHA256sum
                           (challengeFor
                              (Demo.server [Demo.challenging "generic-browser"] false 4)
                              (Demo.request "203.0.113.9" ∅ []) 4 Demo.saturday
                            ++ "0"))]> ∅)))
    by (vm_compute; reflexivity).
  apply (verification_nonce_default _ _ _ _ _ _
           {| Difficulty := 4; ReportAs := 4; Algo := AlgorithmFast |} _ _
           (Demo_reaches_verification _ _ Hp)).
  - reflexivity.
  - vm_compute. reflexivity.
  - intros v H. vm_compute in H. discriminate H.
  - vm_compute. reflexivity.
Defined.

(** C2 on a lookup that times out, with the denylist on and an empty
    cache: the request is forwarded and the address is in the cache. *)
Lemma failed_lookup_is_cached_witness :
  let s := Demo.server [] true 4 in
  let wd := Demo.world Demo.saturday 1 false (255, Some "i/o timeout") in
  let r := Demo.request "203.0.113.9" ∅ [] in
  exists (out : Response) (st' : State),
    MaybeReverseProxy s wd (Demo.state ∅) r = Returned (out, st')
    /\ (exists r', reply out = Forward r')
    /\ DNSBLCache st' !! "203.0.113.9"
       = Some (255, Demo.saturday + 1 + 24 * Time.Hour).
Proof.
  cbv zeta.
  assert (Hex : exists (out : Response) (st' : State),
    MaybeReverseProxy (Demo.server [] true 4)
      (Demo.world Demo.saturday 1 false (255, Some "i/o timeout"))
      (Demo.state ∅) (Demo.request "203.0.113.9" ∅ [])
    = Returned (out, st')
    /\ exists r', reply out = Forward r').
  { eexists _, _. split; [vm_compute; reflexivity|]. eexists. reflexivity. }
  destruct Hex as (out & st' & Hrun & Hfw).
  exists out, st'. split; [exact Hrun|]. split; [exact Hfw|].
  destruct (failed_lookup_is_cached (Demo.server [] true 4)
              (Demo.world Demo.saturday 1 false (255, Some "i/o timeout"))
              (Demo.state ∅) (Demo.request "203.0.113.9" ∅ [])
              {| result := cr "default/allow" RuleAllow;
                 rule := Some (default_bot (policy (Demo.server [] true 4)));
                 err := None; evaluated := [] |}
              255 "i/o timeout")
    as [_ Hcache].
  - reflexivity.
  - reflexivity.
  - reflexivity.
  - reflexivity.
  - reflexivity.
  - destruct (Hcache out st' Hrun) as [H _]. exact H.
Defined.

(** C3 one nanosecond before and at Thursday 2025-10-30 12:00 UTC: the two
    readings lie in different weeks and the challenge strings differ; the
    reading of the Saturday that follows gives the same challenge as the
    Thursday. *)
Lemma challenge_week_witness :
  let s := Demo.server [] false 4 in
  let r := Demo.request "203.0.113.9" ∅ [] in
  let thursday := 1761825600 * Time.Second in
  challengeFor s r 4 Demo.saturday = challengeFor s r 4 thursday
  /\ challengeFor s r 4 (thursday - 1) <> challengeFor s r 4 thursday.
Proof.
  cbv zeta. split.
  - apply eq_sym.
    apply (challenge_week (Demo.server [] false 4)
             (Demo.request "203.0.113.9" ∅ []) 4
             (1761825600 * Time.Second) Demo.saturday).
    reflexivity.
  - apply (challenge_week (Demo.server [] false 4)
             (Demo.request "203.0.113.9" ∅ []) 4
             (1761825600 * Time.Second - 1) (1761825600 * Time.Second)).
    + vm_compute. reflexivity.
    + vm_compute. reflexivity.
    + vm_compute. intros H. discriminate H.
    + vm_compute. intros H. discriminate H.
Defined.

(** What the entry of a failed lookup does to the next request of the same
    address, when [dnsbl.Lookup] returned a response other than [AllGood]
    with its error: the first request is forwarded, the second one, a
    second later, is answered with the page of a listing. *)
Lemma failed_lookup_blocks_next_request :
  let s := Demo.server [] true 4 in
  let r := Demo.request "203.0.113.9" ∅ [] in
  let first := Demo.world Demo.saturday 1 false (255, Some "i/o timeout") in
  let second := Demo.world (Demo.saturday + Time.Second) 1 false (0, None) in
  exists (out1 out2 : Response) (st1 st2 : State),
    MaybeReverseProxy s first (Demo.state ∅) r = Returned (out1, st1)
    /\ (exists r', reply out1 = Forward r')
    /\ MaybeReverseProxy s second (set_tick st1 0) r = Returned (out2, st2)
    /\ reply out2
       = Render 200
           (ErrorPage "DroneBL reported an entry: DroneBLResponse(255), see https://dronebl.org/lookup?ip=203.0.113.9"
                      "admin@example.org").
Proof.
  cbv zeta. eexists _, _, _, _.
  split; [vm_compute; reflexivity|].
  split; [eexists; reflexivity|].
  split; [vm_compute; reflexivity|].
  reflexivity.
Qed.
